(** * graphrest.py: the GraphSession OAuth 2.0 client, embedded in Rocq

    The development follows [src/graphrest.py].  A [GraphSession] object
    holds two Python dictionaries ([self.config] and [self.state]) and the
    string [self.authstate]; its methods read the clock, one file
    ([state.json]), the query string of the current request, and talk to
    the token endpoint.  All of that is collected in one [World] record and
    every method is a computation in a small state-and-exception monad, so
    that what a method has already written stays written when it raises,
    as in Python.

    Idealisations, stated once:
    - Python [str] is a Rocq [string] (bytes); [str.lower] is ASCII
      lower-casing.
    - Numbers are rationals; a [float] is read as the rational it denotes
      and [int(x)] truncates toward zero.  Rounding of floating-point
      arithmetic is not modelled.
    - A JSON value is [None], a boolean, a number or a string.  A JSON
      document that is not an object is [NotJson].
    - [json.loads (json.dumps d) = d]: the file holds the dictionary that
      was written, not its text. *)

From Stdlib Require Import QArith ZArith Ascii String.
From stdpp Require Import base strings gmap list.

Close Scope Q_scope.
Local Open Scope string_scope.

(** ** Python values *)

Inductive pyval : Type :=
  | PyNone
  | PyBool (b : bool)
  | PyNum (q : Q)
  | PyStr (s : string).

(** [bool(v)]: what an [if v:] or a [not v] sees. *)
Definition truthy (v : pyval) : bool :=
  match v with
  | PyNone => false
  | PyBool b => b
  | PyNum q => negb (Qeq_bool q 0)
  | PyStr s => negb (String.eqb s "")
  end.

(** The number a value stands for in an arithmetic comparison; [None] is
    Python's [TypeError]. *)
Definition num_of (v : pyval) : option Q :=
  match v with
  | PyNum q => Some q
  | PyBool b => Some (if b then 1%Q else 0%Q)
  | PyNone | PyStr _ => None
  end.

(** [int(x)] on a number: truncation toward zero. *)
Definition trunc (q : Q) : Z := Z.quot (Qnum q) (Zpos (Qden q)).

(** [str.lower], ASCII. *)
Definition lower_ascii (c : ascii) : ascii :=
  let n := nat_of_ascii c in
  if (65 <=? n)%nat && (n <=? 90)%nat then ascii_of_nat (n + 32) else c.

Fixpoint lower (s : string) : string :=
  match s with
  | EmptyString => EmptyString
  | String c rest => String (lower_ascii c) (lower rest)
  end.

(** [s.split(sep)] for a one-character separator: empty pieces are kept,
    and the empty string splits into one empty piece. *)
Fixpoint split (sep : ascii) (s : string) : list string :=
  match s with
  | EmptyString => [EmptyString]
  | String c rest =>
      if Ascii.eqb c sep then EmptyString :: split sep rest
      else match split sep rest with
           | hd :: tl => String c hd :: tl
           | [] => [String c EmptyString]
           end
  end.

(** [l.remove(x)]: the first occurrence only.  (Python raises when there
    is none; every call below is guarded by [x in l].) *)
Fixpoint remove_first (x : string) (l : list string) : list string :=
  match l with
  | [] => []
  | y :: tl => if decide (x = y) then tl else y :: remove_first x tl
  end.

(** ** Exceptions, outcomes and the world *)

Inductive exn : Type :=
  | StateMismatch (sent received : string)
      (* Exception("STATE MISMATCH: <sent> sent,<received> received") *)
  | KeyError (key : string)
  | TypeError
  | ValueError
  | AttributeError
  | ConnectionError
  | HTTPResponse (status : option Z) (location : string).
      (* what bottle.redirect raises *)

Inductive Outcome (A : Type) : Type :=
  | Ok (a : A)
  | Raise (e : exn)
  | Diverge.  (* the recursion budget of the model ran out *)
Arguments Ok {A} a.
Arguments Raise {A} e.
Arguments Diverge {A}.

Record Config : Type := mkConfig {
  client_id : string;
  client_secret : string;
  redirect_uri : string;
  scopes : list string;
  cache_state : bool;
  resource : string;
  api_version : string;
  authority_url : string;
  auth_endpoint : string;
  token_endpoint : string;
  refresh_enable : bool }.

(** A [requests.Response]: [ok] and the result of [.json()], [None] when
    the body is not a JSON object. *)
Record Response : Type := mkResponse {
  resp_ok : bool;
  resp_json : option (gmap string pyval) }.

Record PostRequest : Type := mkPost {
  post_url : string;
  post_data : list (string * pyval);
  post_verify : bool }.

Inductive FileContent : Type :=
  | JsonObject (d : gmap string pyval)
  | NotJson.

Inductive Diagnostic : Type :=
  | ScopeWarning (expected returned : gset string).

Record World : Type := mkWorld {
  (* the GraphSession object *)
  config : Config;
  state : gmap string pyval;
  authstate : string;
  (* bottle.request.query *)
  query_state : string;
  query_code : string;
  (* the file state.json, None when it does not exist *)
  state_json : option FileContent;
  (* time.time(): the n-th reading is [clock n] *)
  clock : nat -> Q;
  ticks : nat;
  (* the token endpoint: the responses still to come, the requests sent *)
  network : list Response;
  posted : list PostRequest;
  (* what print() has written *)
  stdout : list Diagnostic }.

Definition with_config (c : Config) (w : World) : World :=
  mkWorld c (state w) (authstate w) (query_state w) (query_code w)
    (state_json w) (clock w) (ticks w) (network w) (posted w) (stdout w).
Definition with_state (s : gmap string pyval) (w : World) : World :=
  mkWorld (config w) s (authstate w) (query_state w) (query_code w)
    (state_json w) (clock w) (ticks w) (network w) (posted w) (stdout w).
Definition with_authstate (a : string) (w : World) : World :=
  mkWorld (config w) (state w) a (query_state w) (query_code w)
    (state_json w) (clock w) (ticks w) (network w) (posted w) (stdout w).
Definition with_query (st code : string) (w : World) : World :=
  mkWorld (config w) (state w) (authstate w) st code
    (state_json w) (clock w) (ticks w) (network w) (posted w) (stdout w).
Definition with_state_json (f : option FileContent) (w : World) : World :=
  mkWorld (config w) (state w) (authstate w) (query_state w) (query_code w)
    f (clock w) (ticks w) (network w) (posted w) (stdout w).
Definition with_ticks (n : nat) (w : World) : World :=
  mkWorld (config w) (state w) (authstate w) (query_state w) (query_code w)
    (state_json w) (clock w) n (network w) (posted w) (stdout w).
Definition with_network (l : list Response) (p : list PostRequest) (w : World) : World :=
  mkWorld (config w) (state w) (authstate w) (query_state w) (query_code w)
    (state_json w) (clock w) (ticks w) l p (stdout w).
Definition with_stdout (o : list Diagnostic) (w : World) : World :=
  mkWorld (config w) (state w) (authstate w) (query_state w) (query_code w)
    (state_json w) (clock w) (ticks w) (network w) (posted w) o.

(** ** The monad *)

Definition M (A : Type) : Type := World -> Outcome A * World.

Definition ret {A} (a : A) : M A := fun w => (Ok a, w).
Definition raise {A} (e : exn) : M A := fun w => (Raise e, w).
Definition diverge {A} : M A := fun w => (Diverge, w).
Definition bind {A B} (c : M A) (k : A -> M B) : M B :=
  fun w => match c w with
           | (Ok a, w') => k a w'
           | (Raise e, w') => (Raise e, w')
           | (Diverge, w') => (Diverge, w')
           end.
Definition gets {A} (f : World -> A) : M A := fun w => (Ok (f w), w).
Definition modify (f : World -> World) : M unit := fun w => (Ok tt, f w).

Declare Scope py_scope.
Delimit Scope py_scope with py.
Notation "x <- c ;; k" := (bind c (fun x => k))
  (at level 100, c at next level, right associativity) : py_scope.
Notation "c ;;; k" := (bind c (fun _ => k))
  (at level 100, right associativity) : py_scope.
Local Open Scope py_scope.

(** [d[key]] *)
Definition getitem (d : gmap string pyval) (key : string) : M pyval :=
  match d !! key with
  | Some v => ret v
  | None => raise (KeyError key)
  end.

(** [self.state[key]] and [self.state[key] = v] *)
Definition state_get (key : string) : M pyval :=
  s <- gets state ;; getitem s key.
Definition state_set (key : string) (v : pyval) : M unit :=
  modify (fun w => with_state (<[key := v]> (state w)) w).

(** [time.time()] *)
Definition time_time : M Q :=
  fun w => (Ok (clock w (ticks w)), with_ticks (S (ticks w)) w).

(** [print(...)] *)
Definition print (d : Diagnostic) : M unit :=
  modify (fun w => with_stdout (stdout w ++ [d]) w).

(** [requests.post(url, data=..., verify=...)]: the request is sent and the
    next response of the endpoint comes back; with none left the transport
    fails. *)
Definition requests_post (url : string) (data : list (string * pyval))
    (verify : bool) : M Response :=
  fun w => match network w with
           | [] => (Raise ConnectionError, w)
           | r :: rest =>
               (Ok r, with_network rest (posted w ++ [mkPost url data verify]) w)
           end.

(** [response.json()] *)
Definition response_json (r : Response) : M (gmap string pyval) :=
  match resp_json r with
  | Some d => ret d
  | None => raise ValueError
  end.

(** [bottle.redirect(url, code)] never returns: it raises the response. *)
Definition bottle_redirect {A} (url : string) (code : option Z) : M A :=
  raise (HTTPResponse code url).

(** ** The class GraphSession *)

Definition initialized_keys : list string :=
  ["access_token"; "refresh_token"; "token_expires_at"; "authorization_url";
   "token_scope"; "loggedin"].

Definition initialized_state : gmap string pyval :=
  list_to_map
    [("access_token", PyNone); ("refresh_token", PyNone);
     ("token_expires_at", PyNum 0); ("authorization_url", PyStr "");
     ("token_scope", PyStr ""); ("loggedin", PyBool false)].

Definition filename_present (w : World) : bool :=
  match state_json w with Some _ => true | None => false end.

(** [{key: d[key] for key in keys}], left to right. *)
Fixpoint dict_of_keys (keys : list string) (d acc : gmap string pyval)
    : M (gmap string pyval) :=
  match keys with
  | [] => ret acc
  | key :: rest => v <- getitem d key ;; dict_of_keys rest d (<[key := v]> acc)
  end.

(** The keyword arguments of the constructor: each setting given or not. *)
Record Kwargs : Type := mkKwargs {
  kw_client_id : option string;
  kw_client_secret : option string;
  kw_redirect_uri : option string;
  kw_scopes : option (list string);
  kw_cache_state : option bool;
  kw_resource : option string;
  kw_api_version : option string;
  kw_authority_url : option string;
  kw_auth_endpoint : option string;
  kw_token_endpoint : option string;
  kw_refresh_enable : option bool }.

Section GraphSession.

(** The repository's module [config] is not among the sources; its
    constants are parameters of the development. *)
Variables RESOURCE API_VERSION AUTHORITY_URL AUTH_ENDPOINT TOKEN_ENDPOINT : string.

(** [int(s)] on a string, [None] for [ValueError]: Python's own parser,
    left abstract. *)
Variable int_of_str : string -> option Z.

(** [int(v)] *)
Definition py_int (v : pyval) : M Z :=
  match v with
  | PyNum q => ret (trunc q)
  | PyBool b => ret (if b then 1%Z else 0%Z)
  | PyStr s => match int_of_str s with
               | Some n => ret n
               | None => raise ValueError
               end
  | PyNone => raise TypeError
  end.

(** [verify_scopes(self, token_scopes)] *)
Definition verify_scopes (token_scopes : pyval) : M unit :=
  state_set "token_scope" token_scopes ;;;
  s <- match token_scopes with
       | PyStr s => ret s
       | _ => raise AttributeError   (* no .split *)
       end ;;
  let scopes_returned : gset string := list_to_set (lower <$> split " " s) in
  cfg <- gets config ;;
  let scopes_expected : gset string :=
    list_to_set
      (lower <$> filter (fun x => lower x <> "offline_access") (scopes cfg)) in
  if decide (scopes_expected <> scopes_returned)
  then print (ScopeWarning scopes_expected scopes_returned)
  else ret tt.

(** [token_seconds(self)] *)
Definition token_seconds : M Z :=
  tok <- state_get "access_token" ;;
  expired <- (if negb (truthy tok) then ret true
              else now <- time_time ;;
                   e <- state_get "token_expires_at" ;;
                   match num_of e with
                   | Some x => ret (Qle_bool x now)   (* now >= x *)
                   | None => raise TypeError
                   end) ;;
  if (expired : bool) then ret 0%Z
  else e <- state_get "token_expires_at" ;;
       now <- time_time ;;
       match num_of e with
       | Some x => ret (trunc (x - now))
       | None => raise TypeError
       end.

Section Knot.

(** [token_validation] calls [token_refresh], which calls [token_save],
    [logout], [state_manager] and [token_validation] again.  The methods
    are written against the recursive call, and the knot is tied below. *)
Variable token_refresh_rec : M unit.

(** [token_validation(self, nseconds=5)] *)
Definition token_validation_k (nseconds : Z) : M unit :=
  secs <- token_seconds ;;
  cfg <- gets config ;;
  if (secs <? nseconds)%Z && refresh_enable cfg
  then token_refresh_rec
  else ret tt.

(** [state_manager(self, action)] *)
Definition state_manager_k (action : string) : M unit :=
  if decide (action = "init") then
    modify (with_state initialized_state) ;;;
    cfg <- gets config ;;
    isfile <- gets filename_present ;;
    if cache_state cfg && isfile then
      f <- gets state_json ;;
      match f with
      | Some (JsonObject d) =>
          modify (fun w => with_state (d ∪ state w) w)   (* dict.update *)
      | _ => raise ValueError
      end ;;;
      token_validation_k 5
    else if negb (cache_state cfg) && isfile then
      modify (with_state_json None)                       (* os.remove *)
    else ret tt
  else
    cfg <- gets config ;;
    if bool_decide (action = "save") && cache_state cfg then
      modify (with_state_json (Some NotJson)) ;;;          (* open(.., 'w') *)
      s <- gets state ;;
      d <- dict_of_keys initialized_keys s ∅ ;;
      modify (with_state_json (Some (JsonObject d)))
    else ret tt.

(** [logout(self, redirect_to='/')] *)
Definition logout_k (redirect_to : option string) : M unit :=
  state_manager_k "init" ;;;
  match redirect_to with
  | Some url => if negb (String.eqb url "") then bottle_redirect url None
                else ret tt
  | None => ret tt
  end.

(** [token_save(self, response)] *)
Definition token_save_k (response : Response) : M bool :=
  jsondata <- response_json response ;;
  if negb (bool_decide (is_Some (jsondata !! "access_token"))) then
    logout_k None ;;;
    ret false
  else
    sc <- getitem jsondata "scope" ;;
    verify_scopes sc ;;;
    tok <- getitem jsondata "access_token" ;;
    state_set "access_token" tok ;;;
    state_set "loggedin" (PyBool true) ;;;
    now <- time_time ;;
    e <- getitem jsondata "expires_in" ;;
    n <- py_int e ;;
    state_set "token_expires_at" (PyNum (now + inject_Z n)) ;;;
    state_set "refresh_token" (default PyNone (jsondata !! "refresh_token")) ;;;
    ret true.

(** [token_refresh(self)], one unfolding. *)
Definition token_refresh_body : M unit :=
  cfg <- gets config ;;
  if negb (refresh_enable cfg) then ret tt
  else
    rt <- state_get "refresh_token" ;;
    response <- requests_post (token_endpoint cfg)
                  [("client_id", PyStr (client_id cfg));
                   ("client_secret", PyStr (client_secret cfg));
                   ("grant_type", PyStr "refresh_token");
                   ("refresh_token", rt)]
                  false ;;
    _ <- token_save_k response ;;
    ret tt.

End Knot.

(** [fuel] bounds the depth of the chain refresh, save, logout, init,
    validate, refresh.  Each round takes one response from the endpoint. *)
Fixpoint token_refresh (fuel : nat) : M unit :=
  match fuel with
  | O => diverge
  | S n => token_refresh_body (token_refresh n)
  end.

Definition token_validation (fuel : nat) (nseconds : Z) : M unit :=
  token_validation_k (token_refresh fuel) nseconds.
Definition state_manager (fuel : nat) (action : string) : M unit :=
  state_manager_k (token_refresh fuel) action.
Definition logout (fuel : nat) (redirect_to : option string) : M unit :=
  logout_k (token_refresh fuel) redirect_to.
Definition token_save (fuel : nat) (response : Response) : M bool :=
  token_save_k (token_refresh fuel) response.

(** [redirect_uri_handler(self, redirect_to='/')] *)
Definition redirect_uri_handler (fuel : nat) (redirect_to : string) : M unit :=
  sent <- gets authstate ;;
  received <- gets query_state ;;
  if decide (sent <> received) then raise (StateMismatch sent received)
  else
    modify (with_authstate "") ;;;
    cfg <- gets config ;;
    code <- gets query_code ;;
    token_response <- requests_post (token_endpoint cfg)
                        [("client_id", PyStr (client_id cfg));
                         ("client_secret", PyStr (client_secret cfg));
                         ("grant_type", PyStr "authorization_code");
                         ("code", PyStr code);
                         ("redirect_uri", PyStr (redirect_uri cfg))]
                        true ;;
    _ <- token_save fuel token_response ;;
    (if resp_ok token_response && resp_ok token_response   (* bool(r) is r.ok *)
     then state_manager fuel "save"
     else ret tt) ;;;
    bottle_redirect redirect_to None.

(** [self.config] after [self.config.update(kwargs.items())] *)
Definition merged_config (kw : Kwargs) : Config :=
  {| client_id := default "" (kw_client_id kw);
     client_secret := default "" (kw_client_secret kw);
     redirect_uri := default "" (kw_redirect_uri kw);
     scopes := default [] (kw_scopes kw);
     cache_state := default false (kw_cache_state kw);
     resource := default RESOURCE (kw_resource kw);
     api_version := default API_VERSION (kw_api_version kw);
     authority_url := default AUTHORITY_URL (kw_authority_url kw);
     auth_endpoint := default (AUTHORITY_URL ++ AUTH_ENDPOINT) (kw_auth_endpoint kw);
     token_endpoint := default (AUTHORITY_URL ++ TOKEN_ENDPOINT) (kw_token_endpoint kw);
     refresh_enable := default true (kw_refresh_enable kw) |}.

Definition set_scopes (l : list string) (c : Config) : Config :=
  {| client_id := client_id c; client_secret := client_secret c;
     redirect_uri := redirect_uri c; scopes := l;
     cache_state := cache_state c; resource := resource c;
     api_version := api_version c; authority_url := authority_url c;
     auth_endpoint := auth_endpoint c; token_endpoint := token_endpoint c;
     refresh_enable := refresh_enable c |}.

(** [__init__(self, **kwargs)] *)
Definition __init__ (fuel : nat) (kw : Kwargs) : M unit :=
  modify (with_config (merged_config kw)) ;;;
  state_manager fuel "init" ;;;
  modify (with_authstate "") ;;;
  cfg <- gets config ;;
  let refresh_scope := "offline_access" in
  if refresh_enable cfg then
    if negb (bool_decide (refresh_scope ∈ scopes cfg))
    then modify (with_config (set_scopes (scopes cfg ++ [refresh_scope]) cfg))
    else ret tt
  else
    if bool_decide (refresh_scope ∈ scopes cfg)
    then modify (with_config (set_scopes (remove_first refresh_scope (scopes cfg)) cfg))
    else ret tt.

End GraphSession.

(** ** Vocabulary of the statements

    First the two sets that the specification says [verify_scopes]
    compares, written from its words; then what the statements below need
    to name: worlds and dictionaries that the methods leave, and the
    invariants they keep. *)

Definition returned_scope_set (s : string) : gset string :=
  list_to_set (lower <$> split " " s).

Definition expected_scope_set (configured : list string) : gset string :=
  list_to_set (lower <$> configured) ∖ {["offline_access"]}.

(** The world after [verify_scopes] has run on the string [s]. *)
Definition after_verify (s : string) (w : World) : World :=
  let w1 := with_state (<["token_scope" := PyStr s]> (state w)) w in
  let expected := expected_scope_set (scopes (config w)) in
  let returned := returned_scope_set s in
  if decide (expected = returned) then w1
  else with_stdout (stdout w ++ [ScopeWarning expected returned]) w1.

(** The part of a state dictionary that lies under the six keys of
    [initialized_state]. *)
Definition canonical_record (s : gmap string pyval) : gmap string pyval :=
  filter (fun kv => kv.1 ∈ initialized_keys) s.

(** Every key of [initialized_state] is bound. *)
Definition has_initialized_keys (s : gmap string pyval) : Prop :=
  Forall (fun key => is_Some (s !! key)) initialized_keys.

(** The session left by an initialisation that does not read the cache:
    the default state, and no file. *)
Definition logged_out (w : World) : World :=
  with_state_json None (with_state initialized_state w).


(** What the methods below the request handlers have in common: on a
    world [w], the computation [c] stays within the recursion budget, does
    not raise the state-mismatch exception, leaves the configuration,
    [authstate], the query and the clock alone, consumes responses of the
    endpoint without adding any, and keeps the six keys of the state
    bound. *)
Definition tame_at {A} (c : M A) (w : World) : Prop :=
  fst (c w) <> Diverge /\
  (forall a b, fst (c w) <> Raise (StateMismatch a b)) /\
  config (snd (c w)) = config w /\
  authstate (snd (c w)) = authstate w /\
  query_state (snd (c w)) = query_state w /\
  query_code (snd (c w)) = query_code w /\
  clock (snd (c w)) = clock w /\
  length (network (snd (c w))) <= length (network w) /\
  (has_initialized_keys (state w) -> has_initialized_keys (state (snd (c w)))).

(** [c] is tame on every world with at most [n] responses to come. *)
Definition tame {A} (n : nat) (c : M A) : Prop :=
  forall w, length (network w) <= n -> tame_at c w.

(** The request by which [redirect_uri_handler] exchanges the code, and
    the world in which the response [resp :: rest] is being saved: the
    [authstate] is cleared and the request has gone out. *)
Definition exchange_request (w : World) : PostRequest :=
  mkPost (token_endpoint (config w))
    [("client_id", PyStr (client_id (config w)));
     ("client_secret", PyStr (client_secret (config w)));
     ("grant_type", PyStr "authorization_code");
     ("code", PyStr (query_code w));
     ("redirect_uri", PyStr (redirect_uri (config w)))]
    true.

Definition awaiting_token (rest : list Response) (w : World) : World :=
  with_network rest (posted w ++ [exchange_request w]) (with_authstate "" w).

(** ** Example sessions

    Concrete configurations, responses and worlds, used where a statement
    is run on an input. *)

(** A parser for the examples: [int(s)] on a string of ASCII digits. *)
Definition digit_of (c : ascii) : option Z :=
  let n := nat_of_ascii c in
  if (48 <=? n)%nat && (n <=? 57)%nat then Some (Z.of_nat (n - 48)) else None.

Fixpoint digits_value (s : string) (acc : Z) : option Z :=
  match s with
  | EmptyString => Some acc
  | String c rest =>
      match digit_of c with
      | Some d => digits_value rest (10 * acc + d)%Z
      | None => None
      end
  end.

Definition decimal_int (s : string) : option Z :=
  match s with
  | EmptyString => None
  | _ => digits_value s 0%Z
  end.

Definition ex_config (cache : bool) : Config :=
  {| client_id := "11111111-2222-3333-4444-555555555555";
     client_secret := "s3cret";
     redirect_uri := "http://localhost:5000/login/authorized";
     scopes := ["User.Read"; "offline_access"];
     cache_state := cache;
     resource := "https://graph.microsoft.com/";
     api_version := "v1.0";
     authority_url := "https://login.microsoftonline.com/common";
     auth_endpoint := "https://login.microsoftonline.com/common/oauth2/v2.0/authorize";
     token_endpoint := "https://login.microsoftonline.com/common/oauth2/v2.0/token";
     refresh_enable := true |}.

(** A world whose clock always reads 100. *)
Definition ex_world (cache : bool) (st : gmap string pyval)
    (sent received : string) (file : option FileContent)
    (net : list Response) : World :=
  {| config := ex_config cache; state := st; authstate := sent;
     query_state := received; query_code := "0.AAAA-code";
     state_json := file; clock := fun _ => 100%Q; ticks := 0;
     network := net; posted := []; stdout := [] |}.

(** A token response that grants, and bodies that lack a field. *)
Definition ex_granted : gmap string pyval :=
  list_to_map
    [("token_type", PyStr "Bearer"); ("scope", PyStr "User.Read");
     ("expires_in", PyNum 3600); ("access_token", PyStr "eyJ0-access");
     ("refresh_token", PyStr "OAAA-refresh")].


Definition ex_denied : gmap string pyval :=
  list_to_map
    [("error", PyStr "invalid_grant");
     ("error_description", PyStr "AADSTS70000: the code has expired")].

Definition ex_no_scope : gmap string pyval := delete "scope" ex_granted.


(** The state of a signed-in session, as an earlier run cached it. *)
Definition ex_signed_in : gmap string pyval :=
  list_to_map
    [("access_token", PyStr "eyJ0-cached"); ("refresh_token", PyStr "OAAA-cached");
     ("token_expires_at", PyNum 3700);
     ("authorization_url",
      PyStr "https://login.microsoftonline.com/common/oauth2/v2.0/authorize?response_type=code");
     ("token_scope", PyStr "User.Read"); ("loggedin", PyBool true)].

(** Keyword arguments that name [offline_access] twice and disable
    refresh. *)
Definition ex_kwargs_twice : Kwargs :=
  {| kw_client_id := Some "11111111-2222-3333-4444-555555555555";
     kw_client_secret := Some "s3cret";
     kw_redirect_uri := Some "http://localhost:5000/login/authorized";
     kw_scopes := Some ["offline_access"; "User.Read"; "offline_access"];
     kw_cache_state := None; kw_resource := None; kw_api_version := None;
     kw_authority_url := None; kw_auth_endpoint := None;
     kw_token_endpoint := None;
     kw_refresh_enable := Some false |}.

(** Worlds for the runs below: a callback with the wrong state while one
    grant is on its way; a signed-in session with its cache on disk; a
    callback answered [200] without a token, and one answered [400] with
    a token; a fresh session without a cache; a cached session in which
    [login] has just stored a new authorization URL. *)
Definition ex_forged_callback : World :=
  ex_world false initialized_state "f3a1-sent" "0000-forged" None
    [mkResponse true (Some ex_granted)].

Definition ex_cached_session : World :=
  ex_world true ex_signed_in "" "" (Some (JsonObject ex_signed_in)) [].

Definition ex_callback_ok_denied : World :=
  ex_world true initialized_state "f3a1-sent" "f3a1-sent" None
    [mkResponse true (Some ex_denied)].

Definition ex_callback_error_granted : World :=
  ex_world true initialized_state "f3a1-sent" "f3a1-sent" None
    [mkResponse false (Some ex_granted)].

Definition ex_fresh : World :=
  ex_world false initialized_state "" "" None [].

Definition ex_after_login : World :=
  ex_world true
    (<["authorization_url" :=
         PyStr "https://login.microsoftonline.com/common/oauth2/v2.0/authorize?state=f3a1-sent"]>
       ex_signed_in)
    "f3a1-sent" "" (Some (JsonObject ex_signed_in)) [].

(** A signed-in session whose token expires at 100.5, on a clock that
    reads 100 and then 102. *)
Definition ex_clock_jump : World :=
  {| config := ex_config false;
     state := <["token_expires_at" := PyNum (201 # 2)]> ex_signed_in;
     authstate := ""; query_state := ""; query_code := "";
     state_json := None;
     clock := fun n => match n with O => 100%Q | _ => 102%Q end;
     ticks := 0; network := []; posted := []; stdout := [] |}.

(** ** login and headers

    The two remaining methods that can be embedded.  [uuid.uuid4()] is
    random: the string it yields is an argument of the method.
    [urllib.parse.urlencode] and the text of a number are left abstract.
    ([api_endpoint] rests on [urlparse] and [urljoin], whose case analysis
    is the library's, and is not embedded.) *)

(** [sep.join(l)] *)
Fixpoint join (sep : string) (l : list string) : string :=
  match l with
  | [] => ""
  | x :: rest =>
      match rest with
      | [] => x
      | _ :: _ => x ++ sep ++ join sep rest
      end
  end.

Section Requests.

(** [urllib.parse.urlencode] on a dictionary of strings, in the order of
    its items. *)
Variable urlencode : list (string * string) -> string.

(** [str(x)] on a number. *)
Variable str_of_num : Q -> string.

(** [str(v)], as an f-string formats it. *)
Definition py_str (v : pyval) : string :=
  match v with
  | PyNone => "None"
  | PyBool true => "True"
  | PyBool false => "False"
  | PyNum q => str_of_num q
  | PyStr s => s
  end.

(** The query string [login] builds. *)
Definition login_params (cfg : Config) (st : string) : list (string * string) :=
  [("response_type", "code");
   ("client_id", client_id cfg);
   ("redirect_uri", redirect_uri cfg);
   ("scope", join " " (scopes cfg));
   ("state", st)].

(** [login(self)]; [fresh] is [str(uuid.uuid4())].  The URL handed to
    [bottle.redirect] is the one just stored under [authorization_url]. *)
Definition login (fresh : string) : M unit :=
  modify (with_authstate fresh) ;;;
  cfg <- gets config ;;
  st <- gets authstate ;;
  let params := urlencode (login_params cfg st) in
  let url := auth_endpoint cfg ++ "?" ++ params in
  state_set "authorization_url" (PyStr url) ;;;
  bottle_redirect url (Some 302%Z).

(** The default headers, for the token [token] and the request id
    [request_id]. *)
Definition default_headers (token : pyval) (request_id : string)
    : gmap string string :=
  list_to_map
    [("User-Agent", "graphrest-python");
     ("Authorization", "Bearer " ++ py_str token);
     ("Accept", "application/json");
     ("Content-Type", "application/json");
     ("client-request-id", request_id);
     ("return-client-request-id", "true")].

(** [headers(self, headers=None)]; [request_id] is [str(uuid.uuid4())].
    A dictionary is true when it is not empty. *)
Definition headers (request_id : string) (extra : option (gmap string string))
    : M (gmap string string) :=
  token <- state_get "access_token" ;;
  let merged_headers := default_headers token request_id in
  match extra with
  | Some h =>
      if negb (bool_decide (h = ∅)) then ret (h ∪ merged_headers)   (* dict.update *)
      else ret merged_headers
  | None => ret merged_headers
  end.

End Requests.

(** ** Vocabulary of the further statements *)

(** With refresh disabled, [c] returns or raises within any budget and
    leaves the configuration and the endpoint alone: no request goes out,
    no response is consumed. *)
Definition offline_at {A} (c : M A) (w : World) : Prop :=
  refresh_enable (config w) = false ->
  fst (c w) <> Diverge /\
  config (snd (c w)) = config w /\
  network (snd (c w)) = network w /\
  posted (snd (c w)) = posted w.

Definition offline {A} (c : M A) : Prop := forall w, offline_at c w.

(** The run [r] from the world [w] ended within the budget, sent no
    request and consumed no response. *)
Definition endpoint_untouched {A} (w : World) (r : Outcome A * World) : Prop :=
  fst r <> Diverge /\ network (snd r) = network w /\ posted (snd r) = posted w.

(** The run [r] from the world [w] left the configuration and
    [authstate] as they were. *)
Definition session_identity_kept {A} (w : World) (r : Outcome A * World) : Prop :=
  config (snd r) = config w /\ authstate (snd r) = authstate w.


(** The scope list the constructor leaves, from the caller's. *)
Definition reconciled_scopes (refresh : bool) (l : list string) : list string :=
  if refresh then
    if bool_decide ("offline_access" ∈ l) then l else l ++ ["offline_access"]
  else remove_first "offline_access" l.


(** The world with one more reading of the clock taken. *)
Definition tick (w : World) : World := with_ticks (S (ticks w)) w.

(** ** Further example sessions *)

(** Stand-ins for the two abstract functions, for the runs below:
    [urlencode] as Python 3.7 and later have it on ASCII text (letters,
    digits and [_.-~] are kept, a space becomes [+], any other byte
    becomes [%XX]), and the text of an integer. *)
Definition hex_digit (n : nat) : ascii :=
  ascii_of_nat (if (n <? 10)%nat then 48 + n else 55 + n).

Definition unreserved (c : ascii) : bool :=
  let n := nat_of_ascii c in
  ((48 <=? n)%nat && (n <=? 57)%nat) || ((65 <=? n)%nat && (n <=? 90)%nat) ||
  ((97 <=? n)%nat && (n <=? 122)%nat) ||
  Ascii.eqb c "_" || Ascii.eqb c "." || Ascii.eqb c "-" || Ascii.eqb c "~".

Fixpoint ex_quote_plus (s : string) : string :=
  match s with
  | EmptyString => EmptyString
  | String c rest =>
      let n := nat_of_ascii c in
      (if unreserved c then String c EmptyString
       else if Ascii.eqb c " " then "+"
       else String "%" (String (hex_digit (n / 16))
                          (String (hex_digit (n mod 16)) EmptyString)))
      ++ ex_quote_plus rest
  end.

Definition ex_urlencode (l : list (string * string)) : string :=
  join "&" ((fun kv => ex_quote_plus kv.1 ++ "=" ++ ex_quote_plus kv.2) <$> l).

Fixpoint ex_digits (fuel : nat) (n : N) (acc : string) : string :=
  match fuel with
  | O => acc
  | S fuel' =>
      let acc' := String (ascii_of_N (48 + n mod 10)) acc in
      if (n <? 10)%N then acc' else ex_digits fuel' (n / 10)%N acc'
  end.

Definition ex_str_of_num (q : Q) : string :=
  let z := trunc q in
  let digits := ex_digits (S (N.to_nat (N.log2 (Z.abs_N z)))) (Z.abs_N z) "" in
  if (z <? 0)%Z then String "-" digits else digits.

Definition ex_config_norefresh (cache : bool) : Config :=
  {| client_id := "11111111-2222-3333-4444-555555555555";
     client_secret := "s3cret";
     redirect_uri := "http://localhost:5000/login/authorized";
     scopes := ["User.Read"];
     cache_state := cache;
     resource := "https://graph.microsoft.com/";
     api_version := "v1.0";
     authority_url := "https://login.microsoftonline.com/common";
     auth_endpoint := "https://login.microsoftonline.com/common/oauth2/v2.0/authorize";
     token_endpoint := "https://login.microsoftonline.com/common/oauth2/v2.0/token";
     refresh_enable := false |}.

(** A cached, signed-in session with refresh disabled, one response
    waiting at the endpoint. *)
Definition ex_norefresh_cached : World :=
  {| config := ex_config_norefresh true; state := ex_signed_in; authstate := "";
     query_state := ""; query_code := "";
     state_json := Some (JsonObject ex_signed_in);
     clock := fun _ => 100%Q; ticks := 0;
     network := [mkResponse true (Some ex_granted)]; posted := []; stdout := [] |}.

(** A session whose cache was edited by hand: no expiry time. *)
Definition ex_bad_expiry : World :=
  with_state (<["token_expires_at" := PyNone]> ex_signed_in) ex_cached_session.


Definition ex_stale_file : World :=
  ex_world false ex_signed_in "" "" (Some (JsonObject ex_signed_in)) [].




Definition ex_callback_offline : World :=
  ex_world false initialized_state "f3a1-sent" "f3a1-sent" None [].

Definition ex_callback_no_scope : World :=
  ex_world true initialized_state "f3a1-sent" "f3a1-sent" None
    [mkResponse true (Some ex_no_scope)].


Definition ex_only_offline : World :=
  with_config (set_scopes ["offline_access"] (ex_config false)) ex_fresh.

Definition ex_no_expiry : gmap string pyval := delete "expires_in" ex_granted.

Definition ex_null_scope : gmap string pyval := <["scope" := PyNone]> ex_granted.

Definition ex_kwargs_plain : Kwargs :=
  {| kw_client_id := Some "11111111-2222-3333-4444-555555555555";
     kw_client_secret := Some "s3cret";
     kw_redirect_uri := Some "http://localhost:5000/login/authorized";
     kw_scopes := Some ["User.Read"; "Mail.Read"];
     kw_cache_state := None; kw_resource := None; kw_api_version := None;
     kw_authority_url := None; kw_auth_endpoint := None;
     kw_token_endpoint := None; kw_refresh_enable := None |}.

Definition ex_accept_text : gmap string string :=
  {[ "Accept" := "text/plain" ]}.

(** * Properties *)

(** ** The monad *)

Lemma bind_ok {A B} (c : M A) (k : A -> M B) w a w' :
  c w = (Ok a, w') -> bind c k w = k a w'.
Proof. intros H. unfold bind. rewrite H. reflexivity. Qed.

Lemma bind_raise {A B} (c : M A) (k : A -> M B) w e w' :
  c w = (Raise e, w') -> bind c k w = (Raise e, w').
Proof. intros H. unfold bind. rewrite H. reflexivity. Qed.

Lemma getitem_some d key v w : d !! key = Some v -> getitem d key w = (Ok v, w).
Proof. intros H. unfold getitem. rewrite H. reflexivity. Qed.

Lemma getitem_none d key w : d !! key = None -> getitem d key w = (Raise (KeyError key), w).
Proof. intros H. unfold getitem. rewrite H. reflexivity. Qed.

(** ** verify_scopes *)

(** Filtering before lower-casing, as the code does, gives the set the
    specification describes. *)
Lemma expected_scopes_filter (l : list string) :
  list_to_set (lower <$> filter (fun x => lower x <> "offline_access") l)
  = expected_scope_set l.
Proof.
  unfold expected_scope_set. apply set_eq. intros x.
  rewrite elem_of_difference, !elem_of_list_to_set, !list_elem_of_fmap,
    elem_of_singleton.
  split.
  - intros (y & -> & Hy). apply list_elem_of_filter in Hy as [Hne Hin].
    split; eauto.
  - intros [(y & -> & Hy) Hne]. exists y. split; [done|].
    apply list_elem_of_filter. done.
Qed.

Lemma verify_scopes_run s w :
  verify_scopes (PyStr s) w = (Ok tt, after_verify s w).
Proof.
  unfold verify_scopes, after_verify, bind, state_set, modify, ret, gets, print.
  cbn [config with_state]. rewrite expected_scopes_filter.
  fold (returned_scope_set s).
  destruct (decide (expected_scope_set (scopes (config w)) = returned_scope_set s))
    as [E|E].
  - rewrite decide_False by (intros H; apply H; exact E). reflexivity.
  - rewrite decide_True by exact E. reflexivity.
Qed.

Lemma after_verify_state s w :
  state (after_verify s w) = <["token_scope" := PyStr s]> (state w).
Proof. unfold after_verify. cbn zeta. case_decide; reflexivity. Qed.



(** ** state_manager('init') and logout, away from the cache *)

Section Methods.

Variable int_of_str : string -> option Z.

Lemma state_manager_init_plain fuel w :
  cache_state (config w) && filename_present w = false ->
  state_manager int_of_str fuel "init" w = (Ok tt, logged_out w).
Proof.
  intros H. unfold state_manager, state_manager_k, logged_out.
  rewrite decide_True by reflexivity.
  unfold bind, modify, gets, ret. cbn [config with_state].
  assert (Hp : filename_present (with_state initialized_state w) = filename_present w)
    by reflexivity.
  rewrite Hp, H.
  destruct (cache_state (config w)) eqn:Hc; cbn [negb andb] in *.
  - unfold filename_present in H. destruct w as [? ? ? ? ? f ? ? ? ? ?].
    cbn in *. destruct f; [discriminate|]. reflexivity.
  - destruct (filename_present w) eqn:Hf; [reflexivity|].
    unfold filename_present in Hf. destruct w as [? ? ? ? ? f ? ? ? ? ?].
    cbn in *. destruct f; [discriminate|]. reflexivity.
Qed.

Lemma logout_none_plain fuel w :
  cache_state (config w) && filename_present w = false ->
  logout int_of_str fuel None w = (Ok tt, logged_out w).
Proof.
  intros H. unfold logout, logout_k.
  erewrite bind_ok; [reflexivity|]. apply (state_manager_init_plain fuel w H).
Qed.

Lemma logged_out_plain w :
  cache_state (config (logged_out w)) && filename_present (logged_out w) = false.
Proof. unfold logged_out, filename_present. cbn. apply andb_false_r. Qed.

Lemma logged_out_twice w : logged_out (logged_out w) = logged_out w.
Proof. reflexivity. Qed.

(** With caching off, or with no [state.json] on disk, [logout(None)]
    returns without redirecting, leaves the default state, and a second
    call does the same. *)
Lemma logout_none_twice_plain fuel w :
  cache_state (config w) && filename_present w = false ->
  exists w1,
    logout int_of_str fuel None w = (Ok tt, w1) /\
    state w1 = initialized_state /\
    logout int_of_str fuel None w1 = (Ok tt, w1).
Proof.
  intros H. exists (logged_out w). split; [apply logout_none_plain, H|].
  split; [reflexivity|].
  rewrite logout_none_plain by apply logged_out_plain. reflexivity.
Qed.

(** ** token_save *)

(** With caching off, or with no [state.json] on disk, a response without
    [access_token] makes [token_save] return [False] on the default
    state. *)
Lemma token_save_failure_plain fuel resp d w :
  resp_json resp = Some d ->
  d !! "access_token" = None ->
  cache_state (config w) && filename_present w = false ->
  token_save int_of_str fuel resp w = (Ok false, logged_out w) /\
  state (logged_out w) = initialized_state /\
  state (logged_out w) !! "loggedin" = Some (PyBool false).
Proof.
  intros Hj Ha Hc. split; [|split; reflexivity].
  unfold token_save, token_save_k, response_json. rewrite Hj.
  unfold bind at 1, ret at 1. rewrite Ha.
  rewrite bool_decide_eq_false_2 by (intros [? ?]; discriminate). cbn [negb].
  erewrite bind_ok; [reflexivity|]. apply (logout_none_plain fuel w Hc).
Qed.

(** C10.  When the body of the response has [access_token] but no [scope],
    [token_save] raises [KeyError('scope')], for any recursion budget, and
    the world it leaves is the world it found: no field of the session
    state has been written, and neither [True] nor [False] is returned. *)
Theorem token_save_missing_scope (fuel : nat) (resp : Response)
    (d : gmap string pyval) (tok : pyval) (w : World) :
  resp_json resp = Some d ->
  d !! "access_token" = Some tok ->
  d !! "scope" = None ->
  token_save int_of_str fuel resp w = (Raise (KeyError "scope"), w).
Proof.
  intros Hj Ha Hs. unfold token_save, token_save_k, response_json.
  rewrite Hj. unfold bind at 1, ret at 1.
  rewrite Ha. rewrite bool_decide_eq_true_2 by eauto. cbn [negb].
  unfold getitem at 1. rewrite Hs. reflexivity.
Qed.



(** ** state_manager('save') *)

Lemma dict_of_keys_run keys (s acc : gmap string pyval) w :
  Forall (fun key => is_Some (s !! key)) keys ->
  exists d,
    dict_of_keys keys s acc w = (Ok d, w) /\
    forall k, d !! k = if decide (k ∈ keys) then s !! k else acc !! k.
Proof.
  intros H. revert acc. induction H as [|key rest [v Hv] _ IH]; intros acc.
  - exists acc. split; [reflexivity|]. intros k.
    rewrite decide_False by apply not_elem_of_nil. reflexivity.
  - destruct (IH (<[key := v]> acc)) as (d & Hrun & Hd).
    exists d. split.
    + cbn [dict_of_keys]. erewrite bind_ok by (apply getitem_some, Hv). exact Hrun.
    + intros k. rewrite Hd. destruct (decide (k ∈ rest)) as [Hin|Hout].
      * rewrite decide_True by (apply elem_of_cons; auto). reflexivity.
      * destruct (decide (k = key)) as [->|Hne].
        -- rewrite decide_True by (apply elem_of_cons; auto).
           rewrite lookup_insert_eq. symmetry. exact Hv.
        -- rewrite decide_False by (rewrite elem_of_cons; tauto).
           apply lookup_insert_ne. auto.
Qed.

Lemma canonical_record_lookup (s : gmap string pyval) k :
  canonical_record s !! k = if decide (k ∈ initialized_keys) then s !! k else None.
Proof.
  unfold canonical_record. apply option_eq. intros v.
  rewrite map_lookup_filter_Some. cbn [fst].
  destruct (decide (k ∈ initialized_keys)) as [Hk|Hk].
  - split; [intros [? _]; assumption | intros ?; split; assumption].
  - split; [intros [_ ?]; contradiction | discriminate].
Qed.

Lemma dict_of_initialized_keys (s : gmap string pyval) w :
  has_initialized_keys s ->
  dict_of_keys initialized_keys s ∅ w = (Ok (canonical_record s), w).
Proof.
  intros H. destruct (dict_of_keys_run initialized_keys s ∅ w H) as (d & Hrun & Hd).
  rewrite Hrun. f_equal. f_equal. apply map_eq. intros k.
  rewrite Hd, canonical_record_lookup. case_decide; [reflexivity|apply lookup_empty].
Qed.

Lemma canonical_record_dom (s : gmap string pyval) :
  has_initialized_keys s ->
  dom (canonical_record s) = list_to_set initialized_keys.
Proof.
  intros H. apply set_eq. intros k.
  rewrite elem_of_dom, canonical_record_lookup, elem_of_list_to_set.
  case_decide as Hk.
  - split; [done|]. intros _. unfold has_initialized_keys in H.
    rewrite Forall_forall in H. apply H. exact Hk.
  - split; [intros [? ?]; discriminate|done].
Qed.

Lemma state_manager_save_run fuel w :
  (cache_state (config w) = true -> has_initialized_keys (state w)) ->
  state_manager int_of_str fuel "save" w =
    (Ok tt,
     if cache_state (config w)
     then with_state_json (Some (JsonObject (canonical_record (state w)))) w
     else w).
Proof.
  intros H. unfold state_manager, state_manager_k.
  rewrite decide_False by discriminate.
  unfold bind at 1, gets at 1.
  rewrite bool_decide_eq_true_2 by reflexivity. cbn [andb].
  destruct (cache_state (config w)) eqn:Hc; [|reflexivity].
  unfold bind, modify, gets. cbn [state with_state_json].
  rewrite (dict_of_initialized_keys _ _ (H eq_refl)). reflexivity.
Qed.

(** C4, as the code has it.  [state_manager('save')] returns normally.
    With [cache_state] false it changes nothing.  With [cache_state] true
    it replaces the content of [state.json], whatever it was, by the
    record of the six keys of [initialized_state] with the values the
    session state has under them: [access_token], [refresh_token],
    [token_expires_at], [authorization_url], [token_scope] and [loggedin];
    [authorization_url] is written with the rest.  Nothing else
    changes. *)
Theorem state_manager_save_spec (fuel : nat) (w : World) :
  (cache_state (config w) = true -> has_initialized_keys (state w)) ->
  let record := canonical_record (state w) in
  state_manager int_of_str fuel "save" w =
    (Ok tt,
     if cache_state (config w)
     then with_state_json (Some (JsonObject record)) w
     else w) /\
  (cache_state (config w) = true ->
     dom record = list_to_set initialized_keys /\
     (forall key, key ∈ initialized_keys -> record !! key = state w !! key) /\
     record !! "authorization_url" = state w !! "authorization_url").
Proof.
  intros H record. split; [apply state_manager_save_run, H|].
  intros Hc. split; [apply canonical_record_dom, H, Hc|].
  split.
  - intros key Hk. unfold record. rewrite canonical_record_lookup.
    rewrite decide_True by exact Hk. reflexivity.
  - unfold record. rewrite canonical_record_lookup. reflexivity.
Qed.

(** ** What the inner methods never do *)

Lemma tame_at_pure {A} (o : Outcome A) (w : World) :
  o <> Diverge -> (forall a b, o <> Raise (StateMismatch a b)) ->
  tame_at (fun w => (o, w)) w.
Proof. intros H1 H2. unfold tame_at. cbn. repeat split; auto. Qed.

Lemma tame_ret {A} n (a : A) : tame n (ret a).
Proof. intros w _. apply tame_at_pure; discriminate. Qed.

Lemma tame_gets {A} n (f : World -> A) : tame n (gets f).
Proof. intros w _. apply (tame_at_pure (Ok (f w))); discriminate. Qed.

Lemma tame_raise {A} n (e : exn) :
  (forall a b, e <> StateMismatch a b) -> tame n (raise (A := A) e).
Proof.
  intros H w _. apply tame_at_pure; [discriminate|].
  intros a b E. apply (H a b). congruence.
Qed.

Lemma tame_bind {A B} n (c : M A) (k : A -> M B) :
  tame n c -> (forall a, tame n (k a)) -> tame n (bind c k).
Proof.
  intros Hc Hk w Hw. specialize (Hc w Hw). unfold tame_at in *. unfold bind.
  destruct (c w) as [o w1]. cbn [fst snd] in Hc.
  destruct Hc as (Hd & Hm & Hcfg & Hau & Hqs & Hqc & Hcl & Hnet & Hkeys).
  destruct o as [a|e|]; cbn [fst snd].
  - assert (Hw1 : length (network w1) <= n) by lia.
    destruct (Hk a w1 Hw1) as (Hd' & Hm' & Hcfg' & Hau' & Hqs' & Hqc' & Hcl' & Hnet' & Hkeys').
    repeat split; try congruence; try lia; auto.
  - repeat split; auto.
    intros a b E. apply (Hm a b). inversion E. reflexivity.
  - contradiction.
Qed.

Lemma has_keys_insert (s : gmap string pyval) key v :
  has_initialized_keys s -> has_initialized_keys (<[key := v]> s).
Proof.
  unfold has_initialized_keys. intros H. eapply Forall_impl; [exact H|].
  cbn beta. intros k [x Hx].
  destruct (decide (key = k)) as [->|Hne].
  - rewrite lookup_insert_eq. eauto.
  - rewrite lookup_insert_ne by exact Hne. eauto.
Qed.

Lemma has_keys_update (d s : gmap string pyval) :
  has_initialized_keys s -> has_initialized_keys (d ∪ s).
Proof.
  unfold has_initialized_keys. intros H. eapply Forall_impl; [exact H|].
  cbn beta. intros k Hk. apply lookup_union_is_Some. auto.
Qed.

Lemma has_keys_initialized : has_initialized_keys initialized_state.
Proof.
  unfold has_initialized_keys, initialized_keys.
  repeat (apply Forall_cons; split; [eexists; vm_compute; reflexivity|]).
  apply Forall_nil. exact I.
Qed.

Lemma tame_modify n (f : World -> World) :
  (forall w, config (f w) = config w /\ authstate (f w) = authstate w /\
             query_state (f w) = query_state w /\ query_code (f w) = query_code w /\
             clock (f w) = clock w /\ network (f w) = network w /\
             (has_initialized_keys (state w) -> has_initialized_keys (state (f w)))) ->
  tame n (modify f).
Proof.
  intros H w _. destruct (H w) as (? & ? & ? & ? & ? & Hn & ?).
  unfold tame_at, modify. cbn. rewrite Hn. repeat split; auto; discriminate.
Qed.

Lemma tame_state_set n key v : tame n (state_set key v).
Proof.
  apply tame_modify. intros w. cbn. repeat split; auto. apply has_keys_insert.
Qed.

Lemma tame_print n d : tame n (print d).
Proof. apply tame_modify. intros w. cbn. repeat split; auto. Qed.

Lemma tame_time n : tame n time_time.
Proof.
  intros w _. unfold tame_at, time_time. cbn. repeat split; auto; discriminate.
Qed.

Lemma tame_getitem n d key : tame n (getitem d key).
Proof.
  unfold getitem. destruct (d !! key); [apply tame_ret|].
  apply tame_raise. discriminate.
Qed.

Lemma tame_state_get n key : tame n (state_get key).
Proof.
  unfold state_get. apply tame_bind; [apply tame_gets|]. intros s. apply tame_getitem.
Qed.

Lemma tame_post_bind {B} n url data verify (k : Response -> M B) :
  (forall m r, n = S m -> tame m (k r)) ->
  tame n (bind (requests_post url data verify) k).
Proof.
  intros Hk w Hw. unfold bind, requests_post.
  destruct (network w) as [|r rest] eqn:Hnet.
  - unfold tame_at. rewrite Hnet. cbn. repeat split; auto.
    rewrite Hnet. reflexivity.
  - cbn [length] in Hw. destruct n as [|m]; [lia|].
    set (w1 := with_network rest (posted w ++ [mkPost url data verify]) w).
    assert (Hw1 : length (network w1) <= m) by (cbn; lia).
    destruct (Hk m r eq_refl w1 Hw1)
      as (Hd & Hm & Hcfg & Hau & Hqs & Hqc & Hcl & Hn & Hkeys).
    unfold tame_at. rewrite Hnet. cbn [length].
    repeat split; auto.
Qed.

Ltac tame_step :=
  match goal with
  | |- tame _ (bind (requests_post _ _ _) _) => fail 1
  | |- tame _ (bind _ _) => apply tame_bind; [|intros ?]
  | |- tame _ (ret _) => apply tame_ret
  | |- tame _ (gets _) => apply tame_gets
  | |- tame _ (raise _) => apply tame_raise; discriminate
  | |- tame _ (bottle_redirect _ _) => apply tame_raise; discriminate
  | |- tame _ (state_set _ _) => apply tame_state_set
  | |- tame _ (state_get _) => apply tame_state_get
  | |- tame _ (getitem _ _) => apply tame_getitem
  | |- tame _ (print _) => apply tame_print
  | |- tame _ time_time => apply tame_time
  | |- tame _ (if ?b then _ else _) => destruct b
  | |- tame _ (match ?x with _ => _ end) => destruct x
  end.

Lemma tame_py_int n e : tame n (py_int int_of_str e).
Proof. unfold py_int. repeat tame_step. Qed.

Lemma tame_verify_scopes n v : tame n (verify_scopes v).
Proof. unfold verify_scopes. repeat tame_step. Qed.

Lemma tame_token_seconds n : tame n token_seconds.
Proof. unfold token_seconds. repeat tame_step. Qed.

Section TameKnot.

Variable rec : M unit.
Variable n : nat.
Hypothesis tame_rec : tame n rec.

Lemma tame_token_validation nseconds : tame n (token_validation_k rec nseconds).
Proof.
  unfold token_validation_k.
  apply tame_bind; [apply tame_token_seconds|]. intros secs.
  repeat tame_step. exact tame_rec.
Qed.

Lemma tame_state_manager action : tame n (state_manager_k rec action).
Proof.
  unfold state_manager_k. destruct (decide (action = "init")).
  - apply tame_bind.
    { apply tame_modify. intros w. cbn. repeat split; auto.
      intros ?. apply has_keys_initialized. }
    intros ?. apply tame_bind; [apply tame_gets|]. intros cfg.
    apply tame_bind; [apply tame_gets|]. intros isfile.
    destruct (cache_state cfg && isfile).
    + apply tame_bind; [apply tame_gets|]. intros f.
      apply tame_bind; [|intros ?; apply tame_token_validation].
      destruct f as [[d|]|].
      * apply tame_modify. intros w. cbn. repeat split; auto.
        apply has_keys_update.
      * apply tame_raise. discriminate.
      * apply tame_raise. discriminate.
    + destruct (negb (cache_state cfg) && isfile); [|apply tame_ret].
      apply tame_modify. intros w. cbn. repeat split; auto.
  - apply tame_bind; [apply tame_gets|]. intros cfg.
    destruct (bool_decide (action = "save") && cache_state cfg); [|apply tame_ret].
    apply tame_bind.
    { apply tame_modify. intros w. cbn. repeat split; auto. }
    intros ?. apply tame_bind; [apply tame_gets|]. intros s.
    apply tame_bind.
    { generalize (∅ : gmap string pyval). generalize initialized_keys.
      intros keys. induction keys as [|key rest IH]; intros acc; cbn [dict_of_keys].
      - apply tame_ret.
      - apply tame_bind; [apply tame_getitem|]. intros v. apply IH. }
    intros d. apply tame_modify. intros w. cbn. repeat split; auto.
Qed.

Lemma tame_logout redirect_to : tame n (logout_k rec redirect_to).
Proof.
  unfold logout_k. apply tame_bind; [apply tame_state_manager|]. intros ?.
  repeat tame_step.
Qed.

Lemma tame_token_save response : tame n (token_save_k int_of_str rec response).
Proof.
  unfold token_save_k, response_json.
  apply tame_bind; [repeat tame_step|]. intros jsondata.
  destruct (negb (bool_decide (is_Some (jsondata !! "access_token")))).
  - apply tame_bind; [apply tame_logout|]. intros ?. apply tame_ret.
  - apply tame_bind; [apply tame_getitem|]. intros sc.
    apply tame_bind; [apply tame_verify_scopes|]. intros ?.
    apply tame_bind; [apply tame_getitem|]. intros tok.
    apply tame_bind; [apply tame_state_set|]. intros ?.
    apply tame_bind; [apply tame_state_set|]. intros ?.
    apply tame_bind; [apply tame_time|]. intros now.
    apply tame_bind; [apply tame_getitem|]. intros e.
    apply tame_bind; [apply tame_py_int|]. intros k.
    repeat tame_step.
Qed.

End TameKnot.

Lemma tame_token_refresh_body rec n :
  (forall m, n = S m -> tame m rec) -> tame n (token_refresh_body int_of_str rec).
Proof.
  intros H. unfold token_refresh_body.
  apply tame_bind; [apply tame_gets|]. intros cfg.
  destruct (negb (refresh_enable cfg)); [apply tame_ret|].
  apply tame_bind; [apply tame_state_get|]. intros rt.
  apply tame_post_bind. intros m r ->.
  apply tame_bind; [|intros ?; apply tame_ret].
  apply tame_token_save. apply H. reflexivity.
Qed.

(** A budget above the number of responses still to come is enough. *)
Lemma tame_token_refresh fuel : forall n, n < fuel -> tame n (token_refresh int_of_str fuel).
Proof.
  induction fuel as [|fuel IH]; intros n Hn; [lia|].
  cbn [token_refresh]. apply tame_token_refresh_body.
  intros m ->. apply IH. lia.
Qed.

Lemma tame_token_save_fuel fuel n response :
  n < fuel -> tame n (token_save int_of_str fuel response).
Proof. intros H. apply tame_token_save, tame_token_refresh, H. Qed.

Lemma tame_state_manager_fuel fuel n action :
  n < fuel -> tame n (state_manager int_of_str fuel action).
Proof. intros H. apply tame_state_manager, tame_token_refresh, H. Qed.

(** With a budget above the number of responses to come, [token_save]
    returns or raises: the budget is not what ends it. *)
Lemma token_save_within_budget fuel response w :
  length (network w) < fuel ->
  fst (token_save int_of_str fuel response w) <> Diverge.
Proof.
  intros H.
  exact (proj1 (tame_token_save_fuel fuel (length (network w)) response H w
                  (le_n _))).
Qed.

Lemma tame_logout_fuel fuel n redirect_to :
  n < fuel -> tame n (logout int_of_str fuel redirect_to).
Proof. intros H. apply tame_logout, tame_token_refresh, H. Qed.

(** ** redirect_uri_handler *)

(** Past the state check the handler is tame, and it has cleared
    [authstate]. *)
Lemma redirect_uri_handler_match fuel redirect_to w :
  query_state w = authstate w ->
  length (network w) < fuel ->
  let r := redirect_uri_handler int_of_str fuel redirect_to w in
  fst r <> Diverge /\
  (forall a b, fst r <> Raise (StateMismatch a b)) /\
  authstate (snd r) = "" /\
  config (snd r) = config w.
Proof.
  intros Hq Hf r.
  assert (E : exists k : M unit,
             r = k (with_authstate "" w) /\ tame (length (network w)) k).
  { subst r. unfold redirect_uri_handler.
    unfold bind at 1 2, gets at 1 2.
    rewrite decide_False by (intros H; apply H; symmetry; exact Hq).
    unfold bind at 1, modify at 1.
    eexists. split; [reflexivity|].
    apply tame_bind; [apply tame_gets|]. intros cfg.
    apply tame_bind; [apply tame_gets|]. intros code.
    apply tame_post_bind. intros m resp Hm.
    apply tame_bind; [apply tame_token_save_fuel; lia|]. intros ?.
    apply tame_bind.
    - destruct (resp_ok resp && resp_ok resp); [|apply tame_ret].
      apply tame_state_manager_fuel. lia.
    - intros ?. apply tame_raise. discriminate. }
  destruct E as (k & -> & Ht).
  destruct (Ht (with_authstate "" w) (le_n _))
    as (Hd & Hm & Hcfg & Hau & _).
  split; [exact Hd|]. split; [exact Hm|].
  split; [exact Hau|exact Hcfg].
Qed.

(** C1, as the code has it.  When the received state differs from
    [authstate], [redirect_uri_handler] raises the state-mismatch exception
    and leaves the world exactly as it found it: no request is sent, no
    token is saved, and [authstate] keeps its value.  A later callback that
    carries the stored state therefore passes the check: given budget for
    the responses to come, it does not raise the state-mismatch exception,
    and it is that callback which clears [authstate]. *)
Theorem redirect_uri_handler_mismatch (fuel : nat) (redirect_to : string)
    (w : World) :
  query_state w <> authstate w ->
  redirect_uri_handler int_of_str fuel redirect_to w
    = (Raise (StateMismatch (authstate w) (query_state w)), w) /\
  (forall code redirect_to',
     length (network w) < fuel ->
     let retry :=
       redirect_uri_handler int_of_str fuel redirect_to'
         (with_query (authstate w) code w) in
     (forall a b, fst retry <> Raise (StateMismatch a b)) /\
     fst retry <> Diverge /\
     authstate (snd retry) = "").
Proof.
  intros Hne. split.
  - unfold redirect_uri_handler. unfold bind at 1 2, gets at 1 2.
    rewrite decide_True by (intros H; apply Hne; symmetry; exact H).
    reflexivity.
  - intros code redirect_to' Hf retry.
    destruct (redirect_uri_handler_match fuel redirect_to'
                (with_query (authstate w) code w) eq_refl Hf)
      as (Hd & Hm & Ha & _).
    fold retry in Hd, Hm, Ha. auto.
Qed.

(** C5, as the code has it.  Take a callback that passes the state check
    and whose token response is [resp], and let [token_save] return [b],
    [True] or [False].  Then [redirect_uri_handler] ends by raising the
    redirect to [redirect_to]; and [state.json] is rewritten, with the
    record of the session state that [token_save] left, exactly when the
    response is [ok] and [cache_state] is set.  The value [b] plays no
    part. *)
Theorem redirect_uri_handler_persist (fuel : nat) (redirect_to : string)
    (w : World) (resp : Response) (rest : list Response) (b : bool)
    (w2 : World) :
  query_state w = authstate w ->
  network w = resp :: rest ->
  length rest < fuel ->
  has_initialized_keys (state w) ->
  token_save int_of_str fuel resp (awaiting_token rest w) = (Ok b, w2) ->
  redirect_uri_handler int_of_str fuel redirect_to w =
    (Raise (HTTPResponse None redirect_to),
     if resp_ok resp && cache_state (config w)
     then with_state_json (Some (JsonObject (canonical_record (state w2)))) w2
     else w2).
Proof.
  intros Hq Hnet Hf Hkeys Hsave.
  assert (Hw : length (network (awaiting_token rest w)) <= length rest)
    by (cbn; reflexivity).
  destruct (tame_token_save_fuel fuel (length rest) resp Hf _ Hw)
    as (_ & _ & Hcfg & _ & _ & _ & _ & _ & Hk).
  rewrite Hsave in Hcfg, Hk. cbn [fst snd] in Hcfg, Hk.
  specialize (Hk Hkeys).
  unfold redirect_uri_handler. unfold bind at 1 2, gets at 1 2.
  rewrite decide_False by (intros H; apply H; symmetry; exact Hq).
  unfold bind at 1, modify at 1. unfold bind at 1 2, gets at 1 2.
  unfold bind at 1, requests_post at 1.
  cbn [network with_authstate config query_code]. rewrite Hnet.
  change (with_network rest _ (with_authstate "" w)) with (awaiting_token rest w).
  unfold bind at 1. rewrite Hsave.
  rewrite andb_diag.
  destruct (resp_ok resp); cbn [andb].
  - erewrite bind_ok
      by (apply state_manager_save_run; intros _; exact Hk).
    rewrite Hcfg. reflexivity.
  - reflexivity.
Qed.

(** ** token_seconds *)

Lemma state_get_some key v w :
  state w !! key = Some v -> state_get key w = (Ok v, w).
Proof. intros H. unfold state_get, bind, gets. apply getitem_some, H. Qed.



(** ** The constructor *)

Variables RESOURCE API_VERSION AUTHORITY_URL AUTH_ENDPOINT TOKEN_ENDPOINT : string.

Lemma remove_first_NoDup (x : string) (l : list string) :
  NoDup l -> x ∉ remove_first x l.
Proof.
  induction 1 as [|y tl Hy _ IH]; cbn [remove_first].
  - apply not_elem_of_nil.
  - destruct (decide (x = y)) as [->|Hne]; [exact Hy|].
    rewrite elem_of_cons. intros [?|?]; [contradiction|]. apply IH. assumption.
Qed.

(** What the constructor leaves under [scopes], whenever it returns: with
    refresh enabled [offline_access] is there; with refresh disabled the
    first occurrence has been removed, so it is gone provided the caller's
    list did not name it twice. *)
Lemma init_scopes fuel kw w w' :
  length (network w) < fuel ->
  __init__ RESOURCE API_VERSION AUTHORITY_URL AUTH_ENDPOINT TOKEN_ENDPOINT
    int_of_str fuel kw w = (Ok tt, w') ->
  let cfg := merged_config RESOURCE API_VERSION AUTHORITY_URL AUTH_ENDPOINT
               TOKEN_ENDPOINT kw in
  (refresh_enable cfg = true -> "offline_access" ∈ scopes (config w')) /\
  (refresh_enable cfg = false ->
     scopes (config w') = remove_first "offline_access" (scopes cfg)) /\
  (refresh_enable cfg = false -> NoDup (scopes cfg) ->
     "offline_access" ∉ scopes (config w')).
Proof.
  intros Hf Hrun cfg. unfold __init__ in Hrun.
  unfold bind at 1, modify at 1 in Hrun. fold cfg in Hrun.
  set (w1 := with_config cfg w) in Hrun.
  assert (Hw1 : length (network w1) <= length (network w)) by reflexivity.
  destruct (tame_state_manager_fuel fuel _ "init" Hf w1 Hw1)
    as (_ & _ & Hcfg & _).
  unfold bind at 1 in Hrun.
  destruct (state_manager int_of_str fuel "init" w1) as [[[]|e|] w2];
    [|discriminate|discriminate].
  cbn [snd] in Hcfg. change (config w1) with cfg in Hcfg.
  unfold bind at 1 2, modify at 1, gets at 1 in Hrun.
  cbn [config with_authstate] in Hrun. rewrite Hcfg in Hrun.
  assert (Hrem : "offline_access" ∉ scopes cfg ->
                 remove_first "offline_access" (scopes cfg) = scopes cfg).
  { generalize (scopes cfg). intros l. induction l as [|y tl IH]; [reflexivity|].
    rewrite elem_of_cons. intros Hn. cbn [remove_first].
    rewrite decide_False by tauto. f_equal. apply IH. tauto. }
  destruct (refresh_enable cfg) eqn:Hr.
  - split; [intros _|split; discriminate].
    destruct (bool_decide ("offline_access" ∈ scopes cfg)) eqn:Hin;
      cbn [negb] in Hrun; injection Hrun as <-.
    + apply bool_decide_eq_true in Hin. cbn. rewrite Hcfg. exact Hin.
    + cbn. apply elem_of_app. right. apply elem_of_cons. auto.
  - split; [discriminate|].
    assert (Hs : scopes (config w') = remove_first "offline_access" (scopes cfg)).
    { destruct (bool_decide ("offline_access" ∈ scopes cfg)) eqn:Hin;
        injection Hrun as <-.
      - reflexivity.
      - apply bool_decide_eq_false in Hin. cbn. rewrite Hcfg.
        symmetry. apply Hrem, Hin. }
    split; [intros _; exact Hs|].
    intros _ Hnd. rewrite Hs. apply remove_first_NoDup, Hnd.
Qed.

(** [state_manager('init')] binds the six keys, whatever the state was
    before; with the lemmas above, the state of a constructed session has
    them, and every method keeps them. *)
Lemma state_manager_init_keys fuel w :
  length (network w) < fuel ->
  has_initialized_keys (state (snd (state_manager int_of_str fuel "init" w))).
Proof.
  intros Hf.
  assert (E : exists k : M unit,
             state_manager int_of_str fuel "init" w
               = k (with_state initialized_state w) /\
             tame (length (network w)) k).
  { unfold state_manager, state_manager_k.
    rewrite decide_True by reflexivity.
    unfold bind at 1, modify at 1.
    eexists. split; [reflexivity|].
    apply tame_bind; [apply tame_gets|]. intros cfg.
    apply tame_bind; [apply tame_gets|]. intros isfile.
    destruct (cache_state cfg && isfile).
    - apply tame_bind; [apply tame_gets|]. intros f.
      apply tame_bind;
        [|intros ?; apply tame_token_validation, tame_token_refresh, Hf].
      destruct f as [[d|]|].
      + apply tame_modify. intros w0. cbn. repeat split; auto.
        apply has_keys_update.
      + apply tame_raise. discriminate.
      + apply tame_raise. discriminate.
    - destruct (negb (cache_state cfg) && isfile); [|apply tame_ret].
      apply tame_modify. intros w0. cbn. repeat split; auto. }
  destruct E as (k & -> & Ht).
  destruct (Ht (with_state initialized_state w) (le_n _))
    as (_ & _ & _ & _ & _ & _ & _ & _ & Hk).
  apply Hk. apply has_keys_initialized.
Qed.

Lemma init_keys fuel kw w w' :
  length (network w) < fuel ->
  __init__ RESOURCE API_VERSION AUTHORITY_URL AUTH_ENDPOINT TOKEN_ENDPOINT
    int_of_str fuel kw w = (Ok tt, w') ->
  has_initialized_keys (state w').
Proof.
  intros Hf Hrun. unfold __init__ in Hrun.
  unfold bind at 1, modify at 1 in Hrun.
  set (w1 := with_config _ w) in Hrun.
  pose proof (state_manager_init_keys fuel w1 Hf) as Hk.
  unfold bind at 1 in Hrun.
  destruct (state_manager int_of_str fuel "init" w1) as [[[]|e|] w2];
    [|discriminate|discriminate].
  cbn [snd] in Hk.
  unfold bind at 1 2, modify at 1, gets at 1 in Hrun.
  cbn [config with_authstate] in Hrun.
  destruct (refresh_enable (config w2));
    destruct (bool_decide ("offline_access" ∈ scopes (config w2)));
    cbn [negb] in Hrun; injection Hrun as <-; exact Hk.
Qed.

End Methods.

(** * The methods run on the example sessions *)

(** ** C10 *)

Lemma token_save_missing_scope_witness :
  resp_json (mkResponse true (Some ex_no_scope)) = Some ex_no_scope /\
  ex_no_scope !! "access_token" = Some (PyStr "eyJ0-access") /\
  ex_no_scope !! "scope" = None /\
  token_save decimal_int 3 (mkResponse true (Some ex_no_scope)) ex_fresh
    = (Raise (KeyError "scope"), ex_fresh).
Proof.
  split; [reflexivity|]. split; [vm_compute; reflexivity|].
  split; [vm_compute; reflexivity|].
  apply (token_save_missing_scope decimal_int 3
           (mkResponse true (Some ex_no_scope)) ex_no_scope
           (PyStr "eyJ0-access") ex_fresh).
  - reflexivity.
  - vm_compute; reflexivity.
  - vm_compute; reflexivity.
Defined.

(** ** C1 *)

(** C1, as stated, fails: after a callback with a forged state the stored
    [authstate] is still there, and the callback that carries it is
    accepted, saves the token and signs the user in. *)
Lemma mismatch_keeps_authstate :
  let first := redirect_uri_handler decimal_int 3 "/" ex_forged_callback in
  let second := redirect_uri_handler decimal_int 3 "/"
                  (with_query "f3a1-sent" "0.AAAA-code" (snd first)) in
  authstate ex_forged_callback = "f3a1-sent" /\
  fst first = Raise (StateMismatch "f3a1-sent" "0000-forged") /\
  authstate (snd first) = "f3a1-sent" /\
  authstate (snd first) <> "" /\
  fst second = Raise (HTTPResponse None "/") /\
  state (snd second) !! "loggedin" = Some (PyBool true) /\
  state (snd second) !! "access_token" = Some (PyStr "eyJ0-access").
Proof.
  cbv zeta. split; [reflexivity|]. split; [reflexivity|].
  split; [reflexivity|]. split; [discriminate|].
  split; [vm_compute; reflexivity|].
  split; vm_compute; reflexivity.
Qed.

Lemma redirect_uri_handler_mismatch_witness :
  query_state ex_forged_callback <> authstate ex_forged_callback /\
  redirect_uri_handler decimal_int 3 "/" ex_forged_callback
    = (Raise (StateMismatch "f3a1-sent" "0000-forged"), ex_forged_callback) /\
  authstate
    (snd (redirect_uri_handler decimal_int 3 "/"
            (with_query "f3a1-sent" "0.AAAA-code" ex_forged_callback))) = "".
Proof.
  assert (Hne : query_state ex_forged_callback <> authstate ex_forged_callback)
    by discriminate.
  destruct (redirect_uri_handler_mismatch decimal_int 3 "/" ex_forged_callback Hne)
    as [Hrun Hretry].
  split; [exact Hne|]. split; [exact Hrun|].
  assert (Hf : length (network ex_forged_callback) < 3) by (cbn; lia).
  exact (proj2 (proj2 (Hretry "0.AAAA-code" "/" Hf))).
Defined.

(** ** C3 *)



(** ** C4 *)

(** C4, as stated, fails: after [login] has stored an authorization URL,
    the record that [state_manager('save')] writes has it, under
    [authorization_url], next to the five other keys. *)
Lemma save_writes_authorization_url :
  exists d,
    state_json (snd (state_manager decimal_int 3 "save" ex_after_login))
      = Some (JsonObject d) /\
    d !! "authorization_url" =
      Some (PyStr "https://login.microsoftonline.com/common/oauth2/v2.0/authorize?state=f3a1-sent") /\
    "authorization_url" ∈ dom d /\
    size d = 6.
Proof.
  eexists. split; [vm_compute; reflexivity|].
  split; [vm_compute; reflexivity|].
  split; [apply elem_of_dom; eexists; vm_compute; reflexivity|].
  vm_compute. reflexivity.
Qed.

Lemma state_manager_save_spec_witness :
  (cache_state (config ex_after_login) = true ->
   has_initialized_keys (state ex_after_login)) /\
  state_manager decimal_int 3 "save" ex_after_login =
    (Ok tt,
     with_state_json
       (Some (JsonObject (canonical_record (state ex_after_login))))
       ex_after_login) /\
  dom (canonical_record (state ex_after_login)) = list_to_set initialized_keys.
Proof.
  assert (Hk : cache_state (config ex_after_login) = true ->
               has_initialized_keys (state ex_after_login)).
  { intros _. apply has_keys_insert. unfold has_initialized_keys, initialized_keys.
    repeat (apply Forall_cons; split; [eexists; vm_compute; reflexivity|]).
    apply Forall_nil. exact I. }
  destruct (state_manager_save_spec decimal_int 3 ex_after_login Hk)
    as [Hrun Hrec].
  split; [exact Hk|]. split; [exact Hrun|].
  exact (proj1 (Hrec eq_refl)).
Defined.

(** ** C5 *)

(** C5, as stated, fails in both directions.  A response that is [ok] and
    carries no token makes [token_save] return [False], and the state is
    written to [state.json] all the same; a response that is not [ok] and
    carries a token makes [token_save] return [True] and sign the user in,
    and nothing is written.  Both callbacks end in the redirect. *)
Lemma persist_ignores_save_result :
  let denied := mkResponse true (Some ex_denied) in
  let granted := mkResponse false (Some ex_granted) in
  let r1 := redirect_uri_handler decimal_int 3 "/" ex_callback_ok_denied in
  let r2 := redirect_uri_handler decimal_int 3 "/" ex_callback_error_granted in
  fst (token_save decimal_int 3 denied (awaiting_token [] ex_callback_ok_denied))
    = Ok false /\
  state_json ex_callback_ok_denied = None /\
  state_json (snd r1) = Some (JsonObject initialized_state) /\
  fst r1 = Raise (HTTPResponse None "/") /\
  fst (token_save decimal_int 3 granted (awaiting_token [] ex_callback_error_granted))
    = Ok true /\
  cache_state (config ex_callback_error_granted) = true /\
  state (snd r2) !! "loggedin" = Some (PyBool true) /\
  state_json (snd r2) = None /\
  fst r2 = Raise (HTTPResponse None "/").
Proof.
  cbv zeta. repeat split; vm_compute; reflexivity.
Qed.

Lemma redirect_uri_handler_persist_witness :
  let resp := mkResponse true (Some ex_denied) in
  let w := ex_callback_ok_denied in
  let w2 := snd (token_save decimal_int 3 resp (awaiting_token [] w)) in
  query_state w = authstate w /\
  network w = [resp] /\
  has_initialized_keys (state w) /\
  token_save decimal_int 3 resp (awaiting_token [] w) = (Ok false, w2) /\
  redirect_uri_handler decimal_int 3 "/" w =
    (Raise (HTTPResponse None "/"),
     with_state_json (Some (JsonObject (canonical_record (state w2)))) w2).
Proof.
  cbv zeta.
  assert (Hsave :
    token_save decimal_int 3 (mkResponse true (Some ex_denied))
      (awaiting_token [] ex_callback_ok_denied)
    = (Ok false,
       snd (token_save decimal_int 3 (mkResponse true (Some ex_denied))
              (awaiting_token [] ex_callback_ok_denied)))).
  { apply (token_save_failure_plain decimal_int 3 _ ex_denied).
    - reflexivity.
    - vm_compute; reflexivity.
    - reflexivity. }
  split; [reflexivity|]. split; [reflexivity|].
  split; [apply has_keys_initialized|]. split; [exact Hsave|].
  apply (redirect_uri_handler_persist decimal_int 3 "/" ex_callback_ok_denied
           (mkResponse true (Some ex_denied)) [] false).
  - reflexivity.
  - reflexivity.
  - cbn; lia.
  - apply has_keys_initialized.
  - exact Hsave.
Defined.

(** ** C6 *)



(** [token_seconds] reads the clock twice.  The statement above takes the
    two readings to be the same instant; when more than a second passes
    between them and the expiry falls in between, the result is
    negative. *)
Remark token_seconds_two_readings :
  fst (token_seconds ex_clock_jump) = Ok (-1)%Z.
Proof. vm_compute. reflexivity. Qed.

(** ** C2, C9 and C7: where the code falls short of its own words *)

(** C2.  With caching on and [state.json] on disk, a response without
    [access_token] makes [token_save] return [False], and the session it
    leaves is the one read back from the file: [loggedin] is [True] and the
    cached access token is in place. *)
Theorem token_save_failure_reloads_cache :
  let r := token_save decimal_int 3 (mkResponse false (Some ex_denied))
             ex_cached_session in
  ex_denied !! "access_token" = None /\
  fst r = Ok false /\
  state (snd r) = ex_signed_in /\
  state (snd r) !! "loggedin" = Some (PyBool true) /\
  state (snd r) !! "access_token" = Some (PyStr "eyJ0-cached") /\
  state (snd r) <> initialized_state.
Proof.
  cbv zeta. split; [vm_compute; reflexivity|].
  split; [vm_compute; reflexivity|].
  assert (H : state (snd (token_save decimal_int 3
                            (mkResponse false (Some ex_denied)) ex_cached_session))
              = ex_signed_in) by (vm_compute; reflexivity).
  split; [exact H|]. rewrite H.
  split; [vm_compute; reflexivity|]. split; [vm_compute; reflexivity|].
  intros E. apply (f_equal (fun m => m !! "loggedin")) in E.
  vm_compute in E. discriminate.
Qed.

(** C9.  With caching on and [state.json] on disk, [logout(None)] returns
    without redirecting and leaves the session read back from the file,
    signed in; a second call does the same.  The state is the same both
    times, and it is not the default state. *)
Theorem logout_reloads_cache :
  let r1 := logout decimal_int 3 None ex_cached_session in
  let r2 := logout decimal_int 3 None (snd r1) in
  fst r1 = Ok tt /\ fst r2 = Ok tt /\
  state (snd r1) = ex_signed_in /\
  state (snd r2) = ex_signed_in /\
  state (snd r1) !! "loggedin" = Some (PyBool true) /\
  state (snd r1) <> initialized_state.
Proof.
  cbv zeta. split; [vm_compute; reflexivity|].
  split; [vm_compute; reflexivity|].
  assert (H : state (snd (logout decimal_int 3 None ex_cached_session))
              = ex_signed_in) by (vm_compute; reflexivity).
  split; [exact H|]. split; [vm_compute; reflexivity|]. rewrite H.
  split; [vm_compute; reflexivity|].
  intros E. apply (f_equal (fun m => m !! "loggedin")) in E.
  vm_compute in E. discriminate.
Qed.

(** C7.  Constructed with refresh disabled and a scope list that names
    [offline_access] twice, the session still has [offline_access] among
    its scopes: [list.remove] took out the first occurrence only. *)
Theorem init_keeps_second_offline_access :
  let r := __init__ "https://graph.microsoft.com/" "v1.0"
             "https://login.microsoftonline.com/common"
             "/oauth2/v2.0/authorize" "/oauth2/v2.0/token"
             decimal_int 3 ex_kwargs_twice ex_fresh in
  fst r = Ok tt /\
  refresh_enable (config (snd r)) = false /\
  scopes (config (snd r)) = ["User.Read"; "offline_access"] /\
  "offline_access" ∈ scopes (config (snd r)).
Proof.
  cbv zeta. split; [vm_compute; reflexivity|].
  split; [vm_compute; reflexivity|].
  assert (H : scopes (config (snd (__init__ "https://graph.microsoft.com/" "v1.0"
             "https://login.microsoftonline.com/common"
             "/oauth2/v2.0/authorize" "/oauth2/v2.0/token"
             decimal_int 3 ex_kwargs_twice ex_fresh)))
          = ["User.Read"; "offline_access"]) by (vm_compute; reflexivity).
  split; [exact H|]. rewrite H. apply elem_of_cons. right.
  apply elem_of_cons. left. reflexivity.
Qed.

(** * Further properties of the class *)

Section Further.

Variable int_of_str : string -> option Z.

(** ** token_seconds and token_validation, on any clock *)




(** X2.  When the access token counts as true and [token_expires_at] is
    not a number ([None] or a string, as a hand-edited [state.json] can
    make it), [token_seconds] raises [TypeError], after one reading of the
    clock. *)
Theorem token_seconds_type_error (w : World) (tok e : pyval) :
  state w !! "access_token" = Some tok ->
  truthy tok = true ->
  state w !! "token_expires_at" = Some e ->
  num_of e = None ->
  token_seconds w = (Raise TypeError, tick w).
Proof.
  intros Ht Htr He Hx. unfold token_seconds.
  erewrite bind_ok by (apply state_get_some, Ht).
  rewrite Htr. cbn [negb].
  erewrite bind_raise; [reflexivity|].
  unfold bind at 1, time_time at 1. fold (tick w).
  erewrite bind_ok by (apply (state_get_some _ e (tick w)), He).
  rewrite Hx. reflexivity.
Qed.






(** ** state_manager('init') with the cache *)




(** X5.  With caching off, [state_manager('init')] returns with the
    default state and without [state.json]: a file left by an earlier run
    is removed.  The clock is not read and the endpoint is not
    contacted; nothing else changes. *)
Theorem init_without_cache (fuel : nat) (w : World) :
  cache_state (config w) = false ->
  exists w',
    state_manager int_of_str fuel "init" w = (Ok tt, w') /\
    state w' = initialized_state /\ state_json w' = None /\
    config w' = config w /\ authstate w' = authstate w /\
    ticks w' = ticks w /\ network w' = network w /\ posted w' = posted w /\
    stdout w' = stdout w.
Proof.
  intros Hc. exists (logged_out w). split.
  - apply state_manager_init_plain. rewrite Hc. reflexivity.
  - repeat split.
Qed.




(** ** With refresh disabled the endpoint is never contacted *)

Lemma offline_pure {A} (o : Outcome A) :
  o <> Diverge -> offline (fun w => (o, w)).
Proof. intros H w _. cbn. auto. Qed.

Lemma offline_ret {A} (a : A) : offline (ret a).
Proof. apply offline_pure. discriminate. Qed.

Lemma offline_raise {A} (e : exn) : offline (raise (A := A) e).
Proof. apply offline_pure. discriminate. Qed.

Lemma offline_gets {A} (f : World -> A) : offline (gets f).
Proof. intros w _. cbn. repeat split; try discriminate; auto. Qed.

Lemma offline_modify (f : World -> World) :
  (forall w, config (f w) = config w /\ network (f w) = network w /\
             posted (f w) = posted w) ->
  offline (modify f).
Proof.
  intros H w _. destruct (H w) as (? & ? & ?). cbn.
  repeat split; try discriminate; auto.
Qed.

Lemma offline_bind {A B} (c : M A) (k : A -> M B) :
  offline c -> (forall a, offline (k a)) -> offline (bind c k).
Proof.
  intros Hc Hk w Hr. destruct (Hc w Hr) as (Hd & Hcfg & Hn & Hp).
  unfold bind. destruct (c w) as [o w1]. cbn [fst snd] in *.
  destruct o as [a|e|]; cbn [fst snd].
  - assert (Hr1 : refresh_enable (config w1) = false) by congruence.
    destruct (Hk a w1 Hr1) as (Hd' & Hcfg' & Hn' & Hp').
    repeat split; congruence.
  - repeat split; try discriminate; auto.
  - contradiction.
Qed.

(** Reading the configuration of an offline world gives one with refresh
    disabled. *)
Lemma offline_bind_config {B} (k : Config -> M B) :
  (forall cfg, refresh_enable cfg = false -> offline (k cfg)) ->
  offline (bind (gets config) k).
Proof.
  intros Hk w Hr. unfold bind, gets. apply (Hk (config w) Hr w Hr).
Qed.

Lemma offline_state_set key v : offline (state_set key v).
Proof. apply offline_modify. intros w. cbn. auto. Qed.

Lemma offline_getitem d key : offline (getitem d key).
Proof.
  unfold getitem. destruct (d !! key); [apply offline_ret|apply offline_raise].
Qed.

Lemma offline_state_get key : offline (state_get key).
Proof.
  unfold state_get. apply offline_bind; [apply offline_gets|].
  intros s. apply offline_getitem.
Qed.

Lemma offline_time : offline time_time.
Proof. intros w _. cbn. repeat split; try discriminate; auto. Qed.

Lemma offline_print d : offline (print d).
Proof. apply offline_modify. intros w. cbn. auto. Qed.

Ltac offline_step :=
  match goal with
  | |- offline (bind _ _) => apply offline_bind; [|intros ?]
  | |- offline (ret _) => apply offline_ret
  | |- offline (gets _) => apply offline_gets
  | |- offline (raise _) => apply offline_raise
  | |- offline (bottle_redirect _ _) => apply offline_raise
  | |- offline (state_set _ _) => apply offline_state_set
  | |- offline (state_get _) => apply offline_state_get
  | |- offline (getitem _ _) => apply offline_getitem
  | |- offline (print _) => apply offline_print
  | |- offline time_time => apply offline_time
  | |- offline (if ?b then _ else _) => destruct b
  | |- offline (match ?x with _ => _ end) => destruct x
  end.

Lemma offline_token_seconds : offline token_seconds.
Proof. unfold token_seconds. repeat offline_step. Qed.

Lemma offline_verify_scopes v : offline (verify_scopes v).
Proof. unfold verify_scopes. repeat offline_step. Qed.

Lemma offline_py_int e : offline (py_int int_of_str e).
Proof. unfold py_int. repeat offline_step. Qed.

Section OfflineKnot.

(** The recursive call is never reached, so it can be anything. *)
Variable rec : M unit.

Lemma offline_token_validation nseconds : offline (token_validation_k rec nseconds).
Proof.
  unfold token_validation_k.
  apply offline_bind; [apply offline_token_seconds|]. intros secs.
  apply offline_bind_config. intros cfg Hr. rewrite Hr, andb_false_r.
  apply offline_ret.
Qed.

Lemma offline_state_manager action : offline (state_manager_k rec action).
Proof.
  unfold state_manager_k. destruct (decide (action = "init")).
  - apply offline_bind; [apply offline_modify; intros w; cbn; auto|]. intros ?.
    apply offline_bind; [apply offline_gets|]. intros cfg.
    apply offline_bind; [apply offline_gets|]. intros isfile.
    destruct (cache_state cfg && isfile).
    + apply offline_bind; [apply offline_gets|]. intros f.
      apply offline_bind; [|intros ?; apply offline_token_validation].
      destruct f as [[d|]|].
      * apply offline_modify. intros w. cbn. auto.
      * apply offline_raise.
      * apply offline_raise.
    + destruct (negb (cache_state cfg) && isfile); [|apply offline_ret].
      apply offline_modify. intros w. cbn. auto.
  - apply offline_bind; [apply offline_gets|]. intros cfg.
    destruct (bool_decide (action = "save") && cache_state cfg); [|apply offline_ret].
    apply offline_bind; [apply offline_modify; intros w; cbn; auto|]. intros ?.
    apply offline_bind; [apply offline_gets|]. intros s.
    apply offline_bind.
    { generalize (∅ : gmap string pyval). generalize initialized_keys.
      intros keys. induction keys as [|key rest IH]; intros acc; cbn [dict_of_keys].
      - apply offline_ret.
      - apply offline_bind; [apply offline_getitem|]. intros v. apply IH. }
    intros d. apply offline_modify. intros w. cbn. auto.
Qed.

Lemma offline_logout redirect_to : offline (logout_k rec redirect_to).
Proof.
  unfold logout_k. apply offline_bind; [apply offline_state_manager|]. intros ?.
  repeat offline_step.
Qed.

Lemma offline_token_save response : offline (token_save_k int_of_str rec response).
Proof.
  unfold token_save_k, response_json.
  apply offline_bind; [repeat offline_step|]. intros jsondata.
  destruct (negb (bool_decide (is_Some (jsondata !! "access_token")))).
  - apply offline_bind; [apply offline_logout|]. intros ?. apply offline_ret.
  - apply offline_bind; [apply offline_getitem|]. intros sc.
    apply offline_bind; [apply offline_verify_scopes|]. intros ?.
    apply offline_bind; [apply offline_getitem|]. intros tok.
    apply offline_bind; [apply offline_state_set|]. intros ?.
    apply offline_bind; [apply offline_state_set|]. intros ?.
    apply offline_bind; [apply offline_time|]. intros now.
    apply offline_bind; [apply offline_getitem|]. intros e.
    apply offline_bind; [apply offline_py_int|]. intros k.
    repeat offline_step.
Qed.

Lemma offline_token_refresh_body : offline (token_refresh_body int_of_str rec).
Proof.
  unfold token_refresh_body. apply offline_bind_config. intros cfg Hr.
  rewrite Hr. cbn [negb]. apply offline_ret.
Qed.

End OfflineKnot.

(** X8.  With [refresh_enable] false no method below the callback handler
    contacts the token endpoint: [token_refresh], [token_validation],
    [state_manager], [logout] and [token_save] end without a request sent
    or a response consumed, whatever the state, the file and the clock
    are. *)
Theorem refresh_disabled_offline (fuel : nat) (nseconds : Z)
    (action : string) (redirect_to : option string) (response : Response)
    (w : World) :
  refresh_enable (config w) = false ->
  endpoint_untouched w (token_refresh int_of_str (S fuel) w) /\
  endpoint_untouched w (token_validation int_of_str fuel nseconds w) /\
  endpoint_untouched w (state_manager int_of_str fuel action w) /\
  endpoint_untouched w (logout int_of_str fuel redirect_to w) /\
  endpoint_untouched w (token_save int_of_str fuel response w).
Proof.
  intros Hr. unfold endpoint_untouched.
  pose proof (offline_token_refresh_body (token_refresh int_of_str fuel) w Hr)
    as (H1 & _ & H2 & H3).
  pose proof (offline_token_validation (token_refresh int_of_str fuel) nseconds w Hr)
    as (H4 & _ & H5 & H6).
  pose proof (offline_state_manager (token_refresh int_of_str fuel) action w Hr)
    as (H7 & _ & H8 & H9).
  pose proof (offline_logout (token_refresh int_of_str fuel) redirect_to w Hr)
    as (H10 & _ & H11 & H12).
  pose proof (offline_token_save (token_refresh int_of_str fuel) response w Hr)
    as (H13 & _ & H14 & H15).
  repeat split; assumption.
Qed.

(** ** token_refresh and token_save *)



(** X10.  When the transport fails (no response comes), [token_refresh]
    raises [ConnectionError] and leaves the world as it found it: the old
    tokens and [loggedin] are kept, and nothing is written. *)
Theorem token_refresh_transport_failure (fuel : nat) (w : World) (rt : pyval) :
  refresh_enable (config w) = true ->
  state w !! "refresh_token" = Some rt ->
  network w = [] ->
  token_refresh int_of_str (S fuel) w = (Raise ConnectionError, w).
Proof.
  intros Hr Hrt Hnet. cbn [token_refresh]. unfold token_refresh_body.
  unfold bind at 1, gets at 1. rewrite Hr. cbn [negb].
  erewrite bind_ok by (apply state_get_some, Hrt).
  unfold bind at 1, requests_post at 1. rewrite Hnet. reflexivity.
Qed.

(** X11.  A response with [access_token] and a string [scope] but without
    [expires_in] makes [token_save] raise [KeyError('expires_in')] after it
    has stored the scope and the token and set [loggedin]: the session is
    left signed in, with the expiry time and the refresh token of before. *)
Theorem token_save_missing_expires_in (fuel : nat) (resp : Response)
    (d : gmap string pyval) (tok : pyval) (s : string) (w : World) :
  resp_json resp = Some d ->
  d !! "access_token" = Some tok ->
  d !! "scope" = Some (PyStr s) ->
  d !! "expires_in" = None ->
  exists w',
    token_save int_of_str fuel resp w = (Raise (KeyError "expires_in"), w') /\
    state w' = <["loggedin" := PyBool true]>
                 (<["access_token" := tok]>
                    (<["token_scope" := PyStr s]> (state w))) /\
    state w' !! "loggedin" = Some (PyBool true) /\
    state w' !! "token_expires_at" = state w !! "token_expires_at" /\
    state w' !! "refresh_token" = state w !! "refresh_token".
Proof.
  intros Hj Ha Hs He. unfold token_save, token_save_k, response_json.
  rewrite Hj. unfold bind at 1, ret at 1.
  rewrite Ha. rewrite bool_decide_eq_true_2 by eauto. cbn [negb].
  erewrite bind_ok by (apply getitem_some, Hs).
  erewrite bind_ok by apply verify_scopes_run.
  erewrite bind_ok by (apply getitem_some, Ha).
  pose proof (after_verify_state s w) as Hst.
  unfold bind, state_set, modify, time_time. cbn.
  rewrite (getitem_none d "expires_in" _ He).
  eexists. split; [reflexivity|]. cbn [state with_state with_ticks].
  rewrite Hst. split; [reflexivity|].
  split; [by simplify_map_eq|]. split; by simplify_map_eq.
Qed.

(** X12.  A response whose [scope] is not a string makes [token_save] raise
    [AttributeError]; by then [verify_scopes] has overwritten
    [token_scope] with that value, and nothing else has changed: the
    token, [loggedin] and the expiry time are those of before. *)
Theorem token_save_scope_not_string (fuel : nat) (resp : Response)
    (d : gmap string pyval) (tok v : pyval) (w : World) :
  resp_json resp = Some d ->
  d !! "access_token" = Some tok ->
  d !! "scope" = Some v ->
  (forall s, v <> PyStr s) ->
  token_save int_of_str fuel resp w
    = (Raise AttributeError, with_state (<["token_scope" := v]> (state w)) w).
Proof.
  intros Hj Ha Hs Hv. unfold token_save, token_save_k, response_json.
  rewrite Hj. unfold bind at 1, ret at 1.
  rewrite Ha. rewrite bool_decide_eq_true_2 by eauto. cbn [negb].
  erewrite bind_ok by (apply getitem_some, Hs).
  apply bind_raise. unfold verify_scopes.
  unfold bind at 1, state_set at 1, modify at 1.
  destruct v as [|b|q|s]; try reflexivity. exfalso. exact (Hv s eq_refl).
Qed.


(** ** redirect_uri_handler *)

Lemma handler_exchange fuel redirect_to w resp rest :
  query_state w = authstate w ->
  network w = resp :: rest ->
  redirect_uri_handler int_of_str fuel redirect_to w
    = bind (token_save int_of_str fuel resp)
        (fun _ =>
           bind (if resp_ok resp && resp_ok resp
                 then state_manager int_of_str fuel "save" else ret tt)
             (fun _ => bottle_redirect redirect_to None))
        (awaiting_token rest w).
Proof.
  intros Hq Hnet. unfold redirect_uri_handler.
  unfold bind at 1 2, gets at 1 2.
  rewrite decide_False by (intros H; apply H; symmetry; exact Hq).
  unfold bind at 1, modify at 1. unfold bind at 1 2, gets at 1 2.
  unfold bind at 1, requests_post at 1.
  cbn [network with_authstate config query_code]. rewrite Hnet.
  reflexivity.
Qed.




(** X15.  One shot.  Once a callback with a non-empty state has passed the
    check, whatever became of the exchange, the same callback presented
    again is refused with the state-mismatch exception, and that second
    call changes nothing. *)
Theorem callback_one_shot (fuel : nat) (redirect_to : string) (w : World) :
  query_state w = authstate w ->
  authstate w <> "" ->
  length (network w) < fuel ->
  let w' := snd (redirect_uri_handler int_of_str fuel redirect_to w) in
  forall code redirect_to',
    redirect_uri_handler int_of_str fuel redirect_to'
      (with_query (query_state w) code w')
    = (Raise (StateMismatch "" (query_state w)),
       with_query (query_state w) code w').
Proof.
  intros Hq Hne Hf w' code redirect_to'.
  destruct (redirect_uri_handler_match int_of_str fuel redirect_to w Hq Hf)
    as (_ & _ & Ha & _).
  fold w' in Ha. unfold redirect_uri_handler.
  unfold bind at 1 2, gets at 1 2.
  cbn [authstate query_state with_query]. rewrite Ha.
  rewrite decide_True by (rewrite Hq; intros H; apply Hne; symmetry; exact H).
  reflexivity.
Qed.

(** X16.  When the transport fails during the exchange, the handler raises
    [ConnectionError]: no redirect takes place and the session state is
    as before, but [authstate] has been cleared already. *)
Theorem callback_transport_failure (fuel : nat) (redirect_to : string)
    (w : World) :
  query_state w = authstate w ->
  network w = [] ->
  redirect_uri_handler int_of_str fuel redirect_to w
    = (Raise ConnectionError, with_authstate "" w).
Proof.
  intros Hq Hnet. unfold redirect_uri_handler.
  unfold bind at 1 2, gets at 1 2.
  rewrite decide_False by (intros H; apply H; symmetry; exact Hq).
  unfold bind at 1, modify at 1. unfold bind at 1 2, gets at 1 2.
  unfold bind at 1, requests_post at 1.
  cbn [network with_authstate]. rewrite Hnet. reflexivity.
Qed.

(** X17.  When the token response has [access_token] and no [scope], the
    exception of [token_save] leaves the handler: no redirect takes place
    and nothing is written to [state.json], even for an [ok] response with
    caching on.  [authstate] is cleared, the request has been sent, and
    the session state is as before. *)
Theorem callback_save_raises (fuel : nat) (redirect_to : string) (w : World)
    (resp : Response) (rest : list Response) (d : gmap string pyval)
    (tok : pyval) :
  query_state w = authstate w ->
  network w = resp :: rest ->
  resp_json resp = Some d ->
  d !! "access_token" = Some tok ->
  d !! "scope" = None ->
  redirect_uri_handler int_of_str fuel redirect_to w
    = (Raise (KeyError "scope"), awaiting_token rest w).
Proof.
  intros Hq Hnet Hj Ha Hs.
  rewrite (handler_exchange fuel redirect_to w resp rest Hq Hnet).
  apply bind_raise. unfold token_save, token_save_k, response_json.
  rewrite Hj. unfold bind at 1, ret at 1.
  rewrite Ha. rewrite bool_decide_eq_true_2 by eauto. cbn [negb].
  apply bind_raise. apply getitem_none, Hs.
Qed.


(** ** What the methods keep *)

Lemma tame_token_validation_fuel fuel n nseconds :
  n < fuel -> tame n (token_validation int_of_str fuel nseconds).
Proof. intros H. apply tame_token_validation, tame_token_refresh, H. Qed.

(** Past the state check the handler is a tame computation run on the
    world with [authstate] cleared. *)
Lemma handler_past_check fuel redirect_to w :
  query_state w = authstate w ->
  length (network w) < fuel ->
  exists k : M unit,
    redirect_uri_handler int_of_str fuel redirect_to w
      = k (with_authstate "" w) /\
    tame (length (network w)) k.
Proof.
  intros Hq Hf. unfold redirect_uri_handler.
  unfold bind at 1 2, gets at 1 2.
  rewrite decide_False by (intros H; apply H; symmetry; exact Hq).
  unfold bind at 1, modify at 1.
  eexists. split; [reflexivity|].
  apply tame_bind; [apply tame_gets|]. intros cfg.
  apply tame_bind; [apply tame_gets|]. intros code.
  apply tame_post_bind. intros m resp Hm.
  apply tame_bind; [apply tame_token_save_fuel; lia|]. intros ?.
  apply tame_bind.
  - destruct (resp_ok resp && resp_ok resp); [|apply tame_ret].
    apply tame_state_manager_fuel. lia.
  - intros ?. apply tame_raise. discriminate.
Qed.

(** X19.  The configuration is fixed at construction, and [authstate]
    belongs to [login] and the callback handler: given budget for the
    responses to come, [token_save], [logout], [state_manager] and
    [token_validation] leave both as they were, however the run ends.
    In particular [logout] does not cancel a login in flight. *)
Theorem methods_keep_config_and_authstate (fuel : nat) (response : Response)
    (redirect_to : option string) (action : string) (nseconds : Z)
    (w : World) :
  length (network w) < fuel ->
  session_identity_kept w (token_save int_of_str fuel response w) /\
  session_identity_kept w (logout int_of_str fuel redirect_to w) /\
  session_identity_kept w (state_manager int_of_str fuel action w) /\
  session_identity_kept w (token_validation int_of_str fuel nseconds w).
Proof.
  intros Hf. unfold session_identity_kept.
  destruct (tame_token_save_fuel int_of_str fuel _ response Hf w (le_n _))
    as (_ & _ & H1 & H2 & _).
  destruct (tame_logout_fuel int_of_str fuel _ redirect_to Hf w (le_n _))
    as (_ & _ & H3 & H4 & _).
  destruct (tame_state_manager_fuel int_of_str fuel _ action Hf w (le_n _))
    as (_ & _ & H5 & H6 & _).
  destruct (tame_token_validation_fuel fuel _ nseconds Hf w (le_n _))
    as (_ & _ & H7 & H8 & _).
  repeat split; assumption.
Qed.

(** X20.  The six keys of the state dictionary stay bound: from a state
    that has them, [token_save], [logout], [state_manager],
    [token_validation] and [redirect_uri_handler] lead to a state that has
    them, however the run ends.  So [self.state[key]] for one of the six
    never raises [KeyError] in a later call. *)
Theorem methods_keep_state_keys (fuel : nat) (response : Response)
    (redirect_to : option string) (target : string) (action : string)
    (nseconds : Z) (w : World) :
  has_initialized_keys (state w) ->
  length (network w) < fuel ->
  has_initialized_keys (state (snd (token_save int_of_str fuel response w))) /\
  has_initialized_keys (state (snd (logout int_of_str fuel redirect_to w))) /\
  has_initialized_keys (state (snd (state_manager int_of_str fuel action w))) /\
  has_initialized_keys (state (snd (token_validation int_of_str fuel nseconds w))) /\
  has_initialized_keys (state (snd (redirect_uri_handler int_of_str fuel target w))).
Proof.
  intros Hk Hf.
  destruct (tame_token_save_fuel int_of_str fuel _ response Hf w (le_n _))
    as (_ & _ & _ & _ & _ & _ & _ & _ & H1).
  destruct (tame_logout_fuel int_of_str fuel _ redirect_to Hf w (le_n _))
    as (_ & _ & _ & _ & _ & _ & _ & _ & H2).
  destruct (tame_state_manager_fuel int_of_str fuel _ action Hf w (le_n _))
    as (_ & _ & _ & _ & _ & _ & _ & _ & H3).
  destruct (tame_token_validation_fuel fuel _ nseconds Hf w (le_n _))
    as (_ & _ & _ & _ & _ & _ & _ & _ & H4).
  repeat split; auto.
  destruct (decide (query_state w = authstate w)) as [Hq|Hq].
  - destruct (handler_past_check fuel target w Hq Hf) as (k & -> & Ht).
    destruct (Ht (with_authstate "" w) (le_n _))
      as (_ & _ & _ & _ & _ & _ & _ & _ & H5).
    apply H5. exact Hk.
  - unfold redirect_uri_handler. unfold bind at 1 2, gets at 1 2.
    rewrite decide_True by (intros H; apply Hq; symmetry; exact H).
    exact Hk.
Qed.

(** ** verify_scopes *)

Lemma expected_without_offline_access (l : list string) :
  "offline_access" ∉ expected_scope_set l.
Proof.
  unfold expected_scope_set. rewrite elem_of_difference, elem_of_singleton.
  intros [_ H]. apply H. reflexivity.
Qed.

Lemma verify_scopes_stdout s w :
  stdout (snd (verify_scopes (PyStr s) w)) =
    if decide (expected_scope_set (scopes (config w)) = returned_scope_set s)
    then stdout w
    else (stdout w ++ [ScopeWarning (expected_scope_set (scopes (config w)))
                         (returned_scope_set s)])%list.
Proof.
  rewrite verify_scopes_run. cbn [snd]. unfold after_verify. cbn zeta.
  case_decide; reflexivity.
Qed.

(** X21.  [offline_access] is taken out of the expected set only.  When the
    authority returns it among the scopes, in any case of letters,
    [verify_scopes] prints the warning, whatever is configured. *)
Theorem verify_scopes_offline_access_returned (s : string) (w : World) :
  "offline_access" ∈ returned_scope_set s ->
  stdout (snd (verify_scopes (PyStr s) w)) =
    (stdout w ++ [ScopeWarning (expected_scope_set (scopes (config w)))
                    (returned_scope_set s)])%list.
Proof.
  intros Hin. rewrite verify_scopes_stdout.
  rewrite decide_False; [reflexivity|].
  intros E. rewrite <- E in Hin.
  exact (expected_without_offline_access _ Hin).
Qed.

Lemma split_nonempty c s : split c s <> [].
Proof.
  destruct s as [|a rest]; cbn [split]; [discriminate|].
  destruct (Ascii.eqb a c); [discriminate|].
  destruct (split c rest); discriminate.
Qed.

(** X22.  The returned set is never empty, since the empty string splits
    into one empty piece.  So a session that is configured with no scope
    other than [offline_access] gets the warning on every response,
    whatever scope string comes back. *)
Theorem verify_scopes_nothing_expected (s : string) (w : World) :
  expected_scope_set (scopes (config w)) = ∅ ->
  returned_scope_set s <> ∅ /\
  stdout (snd (verify_scopes (PyStr s) w)) =
    (stdout w ++ [ScopeWarning ∅ (returned_scope_set s)])%list.
Proof.
  intros He.
  assert (Hne : returned_scope_set s <> ∅).
  { unfold returned_scope_set. pose proof (split_nonempty " " s) as Hs.
    destruct (split " " s) as [|x l]; [contradiction|].
    cbn [fmap list_fmap list_to_set]. intros E.
    assert (Hx : lower x ∈ (∅ : gset string)).
    { rewrite <- E. apply elem_of_union_l, elem_of_singleton. reflexivity. }
    exact (not_elem_of_empty _ Hx). }
  split; [exact Hne|].
  rewrite verify_scopes_stdout, He.
  rewrite decide_False by (intros E; apply Hne; symmetry; exact E).
  reflexivity.
Qed.





(** ** login *)

Variable urlencode : list (string * string) -> string.
Variable str_of_num : Q -> string.

(** [login] stores the fresh state, stores the authorization URL and
    raises the redirect, with status 302, to that same URL.  It does not
    sign the session out: every other key of the state, the file and the
    endpoint are untouched. *)
Lemma login_redirects (fresh : string) (w : World) :
  let url := auth_endpoint (config w) ++ "?" ++
             urlencode [("response_type", "code");
                        ("client_id", client_id (config w));
                        ("redirect_uri", redirect_uri (config w));
                        ("scope", join " " (scopes (config w)));
                        ("state", fresh)] in
  exists w',
    login urlencode fresh w = (Raise (HTTPResponse (Some 302%Z) url), w') /\
    authstate w' = fresh /\
    state w' !! "authorization_url" = Some (PyStr url) /\
    (forall key, key <> "authorization_url" -> state w' !! key = state w !! key) /\
    config w' = config w /\ state_json w' = state_json w /\
    network w' = network w /\ posted w' = posted w /\ ticks w' = ticks w.
Proof.
  intros url.
  exists (with_state (<["authorization_url" := PyStr url]> (state w))
            (with_authstate fresh w)).
  split; [reflexivity|].
  cbn [authstate state config state_json network posted ticks with_state
       with_authstate].
  split; [reflexivity|]. split; [apply lookup_insert_eq|].
  split; [|repeat split].
  intros key Hne. apply lookup_insert_ne. auto.
Qed.

(** X24.  After [login], the callback that carries the fresh state passes
    the check and clears [authstate]; a callback that carries any other
    state, the state of an earlier [login] included, is refused with the
    state-mismatch exception and changes nothing. *)
Theorem login_then_callback (fuel : nat) (fresh : string) (w : World) :
  length (network w) < fuel ->
  let w' := snd (login urlencode fresh w) in
  (forall code redirect_to,
     let r := redirect_uri_handler int_of_str fuel redirect_to
                (with_query fresh code w') in
     (forall a b, fst r <> Raise (StateMismatch a b)) /\
     fst r <> Diverge /\ authstate (snd r) = "") /\
  (forall other code redirect_to,
     other <> fresh ->
     redirect_uri_handler int_of_str fuel redirect_to
       (with_query other code w')
     = (Raise (StateMismatch fresh other), with_query other code w')).
Proof.
  intros Hf w'. split.
  - intros code redirect_to r.
    destruct (redirect_uri_handler_match int_of_str fuel redirect_to
                (with_query fresh code w') eq_refl Hf)
      as (Hd & Hm & Ha & _).
    fold r in Hd, Hm, Ha. auto.
  - intros other code redirect_to Hne. unfold redirect_uri_handler.
    unfold bind at 1 2, gets at 1 2.
    change (authstate (with_query other code w')) with fresh.
    change (query_state (with_query other code w')) with other.
    rewrite decide_True by (intros H; apply Hne; symmetry; exact H).
    reflexivity.
Qed.

(** ** headers *)

(** X25.  [headers] returns the six default headers with the caller's laid
    over them: a key the caller gives has the caller's value, default or
    not, and every other key has its default; the keys match by exact
    spelling.  The world is left as it was. *)
Theorem headers_override (request_id : string)
    (extra : option (gmap string string)) (w : World) (token : pyval) :
  state w !! "access_token" = Some token ->
  exists h,
    headers str_of_num request_id extra w = (Ok h, w) /\
    (forall key,
       h !! key =
         match default ∅ extra !! key with
         | Some v => Some v
         | None => default_headers str_of_num token request_id !! key
         end) /\
    dom (default_headers str_of_num token request_id) ⊆ dom h.
Proof.
  intros Ht. unfold headers.
  erewrite bind_ok by (apply state_get_some, Ht).
  set (m := default_headers str_of_num token request_id).
  assert (Hm : forall key, m !! key =
                 match (∅ : gmap string string) !! key with
                 | Some v => Some v | None => m !! key end).
  { intros key. rewrite lookup_empty. reflexivity. }
  destruct extra as [h|]; cbn [default from_option id].
  - destruct (decide (h = ∅)) as [->|Hne].
    + rewrite bool_decide_eq_true_2 by reflexivity. cbn [negb].
      exists m. split; [reflexivity|]. split; [exact Hm|]. reflexivity.
    + rewrite bool_decide_eq_false_2 by exact Hne. cbn [negb].
      exists (h ∪ m). split; [reflexivity|]. split.
      * intros key. rewrite lookup_union.
        destruct (h !! key), (m !! key); reflexivity.
      * rewrite dom_union_L. apply union_subseteq_r.
  - exists m. split; [reflexivity|]. split; [exact Hm|]. reflexivity.
Qed.

(** X26.  [headers] does not check that the session is signed in.  When the
    caller gives no [Authorization] header, the one returned is
    [Bearer ] followed by the text of the stored token: the token itself
    when it is a string, and [Bearer None] in a signed-out session. *)
Theorem headers_authorization (request_id : string)
    (extra : option (gmap string string)) (w : World) (token : pyval) :
  state w !! "access_token" = Some token ->
  default ∅ extra !! "Authorization" = None ->
  exists h,
    headers str_of_num request_id extra w = (Ok h, w) /\
    h !! "Authorization" = Some ("Bearer " ++ py_str str_of_num token) /\
    (token = PyNone -> h !! "Authorization" = Some "Bearer None") /\
    (forall s, token = PyStr s -> h !! "Authorization" = Some ("Bearer " ++ s)).
Proof.
  intros Ht Hno. unfold headers.
  erewrite bind_ok by (apply state_get_some, Ht).
  set (m := default_headers str_of_num token request_id).
  assert (Hm : m !! "Authorization" = Some ("Bearer " ++ py_str str_of_num token))
    by (unfold m, default_headers; by simplify_map_eq).
  assert (Hh : exists h,
            match extra with
            | Some h => if negb (bool_decide (h = ∅)) then ret (h ∪ m) else ret m
            | None => ret m
            end w = (Ok h, w) /\
            h !! "Authorization" = Some ("Bearer " ++ py_str str_of_num token)).
  { destruct extra as [h|]; cbn [default from_option id] in Hno.
    - destruct (negb (bool_decide (h = ∅))).
      + exists (h ∪ m). split; [reflexivity|].
        rewrite lookup_union, Hno, Hm. reflexivity.
      + exists m. split; [reflexivity|exact Hm].
    - exists m. split; [reflexivity|exact Hm]. }
  destruct Hh as (h & Hrun & Hauth).
  exists h. split; [exact Hrun|]. split; [exact Hauth|].
  split; [intros ->; exact Hauth|intros s ->; exact Hauth].
Qed.

(** ** The constructor *)

Variables RESOURCE API_VERSION AUTHORITY_URL AUTH_ENDPOINT TOKEN_ENDPOINT : string.

Lemma set_scopes_same (c : Config) : set_scopes (scopes c) c = c.
Proof. destruct c. reflexivity. Qed.

Lemma remove_first_absent (x : string) (l : list string) :
  x ∉ l -> remove_first x l = l.
Proof.
  induction l as [|y tl IH]; [reflexivity|].
  rewrite elem_of_cons. intros Hn. cbn [remove_first].
  rewrite decide_False by tauto. f_equal. apply IH. tauto.
Qed.

Lemma remove_first_other (x y : string) (l : list string) :
  y <> x -> (y ∈ remove_first x l <-> y ∈ l).
Proof.
  intros Hne. induction l as [|z tl IH]; [reflexivity|].
  cbn [remove_first]. destruct (decide (x = z)) as [->|Hz].
  - rewrite elem_of_cons. tauto.
  - rewrite !elem_of_cons, IH. reflexivity.
Qed.

(** The scopes after the constructor's last step, from a world whose
    configuration is [cfg]. *)
Lemma init_reconcile (cfg : Config) (w : World) :
  config w = cfg ->
  exists w',
    (if refresh_enable cfg then
       if negb (bool_decide ("offline_access" ∈ scopes cfg))
       then modify (with_config (set_scopes (scopes cfg ++ ["offline_access"]) cfg))
       else ret tt
     else
       if bool_decide ("offline_access" ∈ scopes cfg)
       then modify (with_config
                      (set_scopes (remove_first "offline_access" (scopes cfg)) cfg))
       else ret tt) w = (Ok tt, w') /\
    w' = with_config
           (set_scopes (reconciled_scopes (refresh_enable cfg) (scopes cfg)) cfg) w.
Proof.
  intros Hcfg. unfold reconciled_scopes.
  assert (Hid : with_config (set_scopes (scopes cfg) cfg) w = w).
  { rewrite set_scopes_same. subst cfg. destruct w. reflexivity. }
  destruct (refresh_enable cfg);
    destruct (bool_decide ("offline_access" ∈ scopes cfg)) eqn:Hin; cbn [negb].
  - exists w. split; [reflexivity|]. symmetry. exact Hid.
  - eexists. split; reflexivity.
  - eexists. split; reflexivity.
  - exists w. split; [reflexivity|]. apply bool_decide_eq_false in Hin.
    rewrite (remove_first_absent _ _ Hin). symmetry. exact Hid.
Qed.

Lemma init_config fuel kw w w' :
  length (network w) < fuel ->
  __init__ RESOURCE API_VERSION AUTHORITY_URL AUTH_ENDPOINT TOKEN_ENDPOINT
    int_of_str fuel kw w = (Ok tt, w') ->
  let cfg := merged_config RESOURCE API_VERSION AUTHORITY_URL AUTH_ENDPOINT
               TOKEN_ENDPOINT kw in
  config w' =
    set_scopes (reconciled_scopes (refresh_enable cfg) (scopes cfg)) cfg /\
  authstate w' = "".
Proof.
  intros Hf Hrun cfg. unfold __init__ in Hrun.
  unfold bind at 1, modify at 1 in Hrun. fold cfg in Hrun.
  set (w1 := with_config cfg w) in Hrun.
  assert (Hw1 : length (network w1) <= length (network w)) by reflexivity.
  destruct (tame_state_manager_fuel int_of_str fuel _ "init" Hf w1 Hw1)
    as (_ & _ & Hcfg & _).
  unfold bind at 1 in Hrun.
  destruct (state_manager int_of_str fuel "init" w1) as [[[]|e|] w2];
    [|discriminate|discriminate].
  cbn [snd] in Hcfg. change (config w1) with cfg in Hcfg.
  unfold bind at 1 2, modify at 1, gets at 1 in Hrun.
  cbn [config with_authstate] in Hrun. rewrite Hcfg in Hrun.
  destruct (init_reconcile cfg (with_authstate "" w2) Hcfg) as (w3 & Hrec & ->).
  rewrite Hrec in Hrun. injection Hrun as <-. split; reflexivity.
Qed.

(** X27.  Whenever the constructor returns, the scopes it leaves are the
    caller's, in the caller's order, reconciled with [refresh_enable]:
    with refresh enabled [offline_access] is among them, added at the end
    if it was missing; with refresh disabled its first occurrence is
    removed, so it is gone when the caller did not repeat it.  Every other
    scope is kept, and so is every other setting; [authstate] is empty. *)
Theorem init_scopes_reconciled (fuel : nat) (kw : Kwargs) (w w' : World) :
  length (network w) < fuel ->
  __init__ RESOURCE API_VERSION AUTHORITY_URL AUTH_ENDPOINT TOKEN_ENDPOINT
    int_of_str fuel kw w = (Ok tt, w') ->
  let cfg := merged_config RESOURCE API_VERSION AUTHORITY_URL AUTH_ENDPOINT
               TOKEN_ENDPOINT kw in
  config w' =
    set_scopes (reconciled_scopes (refresh_enable cfg) (scopes cfg)) cfg /\
  (refresh_enable cfg = true -> "offline_access" ∈ scopes (config w')) /\
  (refresh_enable cfg = false -> NoDup (scopes cfg) ->
     "offline_access" ∉ scopes (config w')) /\
  (forall x, x <> "offline_access" ->
     (x ∈ scopes (config w') <-> x ∈ scopes cfg)) /\
  authstate w' = "".
Proof.
  intros Hf Hrun cfg.
  destruct (init_config fuel kw w w' Hf Hrun) as [Hc Ha]. fold cfg in Hc.
  split; [exact Hc|]. rewrite Hc. cbn [scopes set_scopes].
  unfold reconciled_scopes.
  split; [|split; [|split; [|exact Ha]]].
  - intros ->. destruct (bool_decide ("offline_access" ∈ scopes cfg)) eqn:Hin.
    + apply bool_decide_eq_true in Hin. exact Hin.
    + apply elem_of_app. right. apply elem_of_cons. auto.
  - intros -> Hnd. apply remove_first_NoDup, Hnd.
  - intros x Hx. destruct (refresh_enable cfg).
    + destruct (bool_decide ("offline_access" ∈ scopes cfg)); [reflexivity|].
      rewrite elem_of_app, elem_of_cons, elem_of_nil. tauto.
    + apply remove_first_other, Hx.
Qed.

(** X28.  Constructed with caching off, the session starts signed out: the
    constructor returns for any budget, with the default state, an empty
    [authstate] and no [state.json], without reading the clock or
    contacting the endpoint. *)
Theorem init_fresh_session (fuel : nat) (kw : Kwargs) (w : World) :
  default false (kw_cache_state kw) = false ->
  let cfg := merged_config RESOURCE API_VERSION AUTHORITY_URL AUTH_ENDPOINT
               TOKEN_ENDPOINT kw in
  exists w',
    __init__ RESOURCE API_VERSION AUTHORITY_URL AUTH_ENDPOINT TOKEN_ENDPOINT
      int_of_str fuel kw w = (Ok tt, w') /\
    state w' = initialized_state /\
    state w' !! "loggedin" = Some (PyBool false) /\
    authstate w' = "" /\
    state_json w' = None /\
    config w' =
      set_scopes (reconciled_scopes (refresh_enable cfg) (scopes cfg)) cfg /\
    network w' = network w /\ posted w' = posted w /\ ticks w' = ticks w.
Proof.
  intros Hc cfg. unfold __init__.
  unfold bind at 1, modify at 1. fold cfg.
  set (w1 := with_config cfg w).
  assert (Hplain : cache_state (config w1) && filename_present w1 = false).
  { cbn [config w1 with_config]. unfold cfg at 1. cbn [cache_state merged_config].
    rewrite Hc. reflexivity. }
  erewrite bind_ok by (apply state_manager_init_plain, Hplain).
  unfold bind at 1 2, modify at 1, gets at 1.
  cbn [config with_authstate logged_out with_state_json with_state w1 with_config].
  match goal with
  | |- context [ _ (with_authstate "" ?w2) ] =>
      destruct (init_reconcile cfg (with_authstate "" w2) eq_refl)
        as (w3 & Hrec & ->)
  end.
  eexists. split; [exact Hrec|]. repeat split.
Qed.

End Further.

(** * The further properties run on the example sessions *)

Ltac keys_by_computation :=
  unfold has_initialized_keys, initialized_keys;
  repeat (apply Forall_cons; split; [eexists; vm_compute; reflexivity|]);
  apply Forall_nil; exact I.


Lemma token_seconds_type_error_witness :
  state ex_bad_expiry !! "access_token" = Some (PyStr "eyJ0-cached") /\
  state ex_bad_expiry !! "token_expires_at" = Some PyNone /\
  token_seconds ex_bad_expiry = (Raise TypeError, tick ex_bad_expiry).
Proof.
  assert (H1 : state ex_bad_expiry !! "access_token" = Some (PyStr "eyJ0-cached"))
    by (vm_compute; reflexivity).
  assert (H2 : state ex_bad_expiry !! "token_expires_at" = Some PyNone)
    by (vm_compute; reflexivity).
  split; [exact H1|]. split; [exact H2|].
  exact (token_seconds_type_error ex_bad_expiry _ _ H1 eq_refl H2 eq_refl).
Defined.



Lemma init_without_cache_witness :
  cache_state (config ex_stale_file) = false /\
  state_json ex_stale_file = Some (JsonObject ex_signed_in) /\
  exists w',
    state_manager decimal_int 3 "init" ex_stale_file = (Ok tt, w') /\
    state w' = initialized_state /\ state_json w' = None.
Proof.
  split; [reflexivity|]. split; [reflexivity|].
  destruct (init_without_cache decimal_int 3 ex_stale_file eq_refl)
    as (w' & Hrun & Hs & Hf & _).
  exists w'. repeat split; assumption.
Defined.



Lemma refresh_disabled_offline_witness :
  refresh_enable (config ex_norefresh_cached) = false /\
  endpoint_untouched ex_norefresh_cached
    (state_manager decimal_int 3 "init" ex_norefresh_cached) /\
  endpoint_untouched ex_norefresh_cached
    (token_save decimal_int 3 (mkResponse false (Some ex_denied))
       ex_norefresh_cached).
Proof.
  split; [reflexivity|].
  destruct (refresh_disabled_offline decimal_int 3 5 "init" None
              (mkResponse false (Some ex_denied)) ex_norefresh_cached eq_refl)
    as (_ & _ & H3 & _ & H5).
  split; assumption.
Defined.


Lemma token_refresh_transport_failure_witness :
  refresh_enable (config ex_cached_session) = true /\
  network ex_cached_session = [] /\
  token_refresh decimal_int 3 ex_cached_session
    = (Raise ConnectionError, ex_cached_session).
Proof.
  split; [reflexivity|]. split; [reflexivity|].
  apply (token_refresh_transport_failure decimal_int 2 ex_cached_session
           (PyStr "OAAA-cached")).
  - reflexivity.
  - vm_compute; reflexivity.
  - reflexivity.
Defined.

Lemma token_save_missing_expires_in_witness :
  ex_no_expiry !! "access_token" = Some (PyStr "eyJ0-access") /\
  ex_no_expiry !! "expires_in" = None /\
  exists w',
    token_save decimal_int 3 (mkResponse true (Some ex_no_expiry)) ex_fresh
      = (Raise (KeyError "expires_in"), w') /\
    state w' !! "loggedin" = Some (PyBool true) /\
    state w' !! "token_expires_at" = Some (PyNum 0).
Proof.
  assert (Ha : ex_no_expiry !! "access_token" = Some (PyStr "eyJ0-access"))
    by (vm_compute; reflexivity).
  assert (He : ex_no_expiry !! "expires_in" = None) by (vm_compute; reflexivity).
  split; [exact Ha|]. split; [exact He|].
  destruct (token_save_missing_expires_in decimal_int 3
              (mkResponse true (Some ex_no_expiry)) ex_no_expiry
              (PyStr "eyJ0-access") "User.Read" ex_fresh eq_refl Ha)
    as (w' & Hrun & _ & Hlog & Hexp & _).
  - vm_compute; reflexivity.
  - exact He.
  - exists w'. split; [exact Hrun|]. split; [exact Hlog|].
    rewrite Hexp. vm_compute. reflexivity.
Defined.

Lemma token_save_scope_not_string_witness :
  ex_null_scope !! "scope" = Some PyNone /\
  token_save decimal_int 3 (mkResponse true (Some ex_null_scope)) ex_fresh
    = (Raise AttributeError,
       with_state (<["token_scope" := PyNone]> (state ex_fresh)) ex_fresh).
Proof.
  assert (Hs : ex_null_scope !! "scope" = Some PyNone) by (vm_compute; reflexivity).
  split; [exact Hs|].
  apply (token_save_scope_not_string decimal_int 3
           (mkResponse true (Some ex_null_scope)) ex_null_scope
           (PyStr "eyJ0-access") PyNone ex_fresh).
  - reflexivity.
  - vm_compute; reflexivity.
  - exact Hs.
  - discriminate.
Defined.



Lemma callback_one_shot_witness :
  query_state ex_callback_ok_denied = authstate ex_callback_ok_denied /\
  authstate ex_callback_ok_denied <> "" /\
  let w' := snd (redirect_uri_handler decimal_int 3 "/" ex_callback_ok_denied) in
  redirect_uri_handler decimal_int 3 "/" (with_query "f3a1-sent" "0.AAAA-code" w')
    = (Raise (StateMismatch "" "f3a1-sent"),
       with_query "f3a1-sent" "0.AAAA-code" w').
Proof.
  assert (Hne : authstate ex_callback_ok_denied <> "") by discriminate.
  split; [reflexivity|]. split; [exact Hne|].
  assert (Hf : length (network ex_callback_ok_denied) < 3) by (cbn; lia).
  exact (callback_one_shot decimal_int 3 "/" ex_callback_ok_denied eq_refl Hne Hf
           "0.AAAA-code" "/").
Defined.

Lemma callback_transport_failure_witness :
  query_state ex_callback_offline = authstate ex_callback_offline /\
  network ex_callback_offline = [] /\
  redirect_uri_handler decimal_int 3 "/" ex_callback_offline
    = (Raise ConnectionError, with_authstate "" ex_callback_offline).
Proof.
  split; [reflexivity|]. split; [reflexivity|].
  exact (callback_transport_failure decimal_int 3 "/" ex_callback_offline
           eq_refl eq_refl).
Defined.

Lemma callback_save_raises_witness :
  query_state ex_callback_no_scope = authstate ex_callback_no_scope /\
  ex_no_scope !! "scope" = None /\
  resp_ok (mkResponse true (Some ex_no_scope)) &&
    cache_state (config ex_callback_no_scope) = true /\
  redirect_uri_handler decimal_int 3 "/" ex_callback_no_scope
    = (Raise (KeyError "scope"), awaiting_token [] ex_callback_no_scope) /\
  state_json (awaiting_token [] ex_callback_no_scope) = None.
Proof.
  assert (Hs : ex_no_scope !! "scope" = None) by (vm_compute; reflexivity).
  split; [reflexivity|]. split; [exact Hs|]. split; [reflexivity|].
  split; [|reflexivity].
  apply (callback_save_raises decimal_int 3 "/" ex_callback_no_scope
           (mkResponse true (Some ex_no_scope)) [] ex_no_scope
           (PyStr "eyJ0-access")).
  - reflexivity.
  - reflexivity.
  - reflexivity.
  - vm_compute; reflexivity.
  - exact Hs.
Defined.


Lemma methods_keep_config_and_authstate_witness :
  length (network ex_forged_callback) < 3 /\
  session_identity_kept ex_forged_callback
    (logout decimal_int 3 (Some "/") ex_forged_callback) /\
  authstate (snd (logout decimal_int 3 (Some "/") ex_forged_callback))
    = "f3a1-sent".
Proof.
  assert (Hf : length (network ex_forged_callback) < 3) by (cbn; lia).
  split; [exact Hf|].
  destruct (methods_keep_config_and_authstate decimal_int 3
              (mkResponse true (Some ex_granted)) (Some "/") "init" 5
              ex_forged_callback Hf)
    as (_ & H2 & _).
  split; [exact H2|]. exact (proj2 H2).
Defined.

Lemma methods_keep_state_keys_witness :
  has_initialized_keys (state ex_cached_session) /\
  length (network ex_cached_session) < 3 /\
  has_initialized_keys
    (state (snd (token_save decimal_int 3 (mkResponse false (Some ex_denied))
                   ex_cached_session))) /\
  has_initialized_keys
    (state (snd (redirect_uri_handler decimal_int 3 "/" ex_cached_session))).
Proof.
  assert (Hk : has_initialized_keys (state ex_cached_session))
    by keys_by_computation.
  assert (Hf : length (network ex_cached_session) < 3) by (cbn; lia).
  split; [exact Hk|]. split; [exact Hf|].
  destruct (methods_keep_state_keys decimal_int 3
              (mkResponse false (Some ex_denied)) None "/" "init" 5
              ex_cached_session Hk Hf)
    as (H1 & _ & _ & _ & H5).
  split; assumption.
Defined.

Lemma verify_scopes_offline_access_returned_witness :
  "offline_access" ∈ returned_scope_set "User.Read Offline_Access" /\
  stdout (snd (verify_scopes (PyStr "User.Read Offline_Access") ex_fresh)) =
    [ScopeWarning (expected_scope_set (scopes (config ex_fresh)))
       (returned_scope_set "User.Read Offline_Access")].
Proof.
  assert (Hin : "offline_access" ∈ returned_scope_set "User.Read Offline_Access").
  { unfold returned_scope_set. apply elem_of_list_to_set.
    apply elem_of_cons. right. apply elem_of_cons. left. reflexivity. }
  split; [exact Hin|].
  exact (verify_scopes_offline_access_returned "User.Read Offline_Access"
           ex_fresh Hin).
Defined.

Lemma verify_scopes_nothing_expected_witness :
  expected_scope_set (scopes (config ex_only_offline)) = ∅ /\
  stdout (snd (verify_scopes (PyStr "") ex_only_offline)) =
    [ScopeWarning ∅ (returned_scope_set "")].
Proof.
  assert (He : expected_scope_set (scopes (config ex_only_offline)) = ∅)
    by (vm_compute; reflexivity).
  split; [exact He|].
  exact (proj2 (verify_scopes_nothing_expected "" ex_only_offline He)).
Defined.


Lemma login_then_callback_witness :
  length (network ex_fresh) < 3 /\
  let w' := snd (login ex_urlencode "9b2e-fresh" ex_fresh) in
  authstate
    (snd (redirect_uri_handler decimal_int 3 "/"
            (with_query "9b2e-fresh" "0.AAAA-code" w'))) = "" /\
  redirect_uri_handler decimal_int 3 "/" (with_query "f3a1-sent" "0.AAAA-code" w')
    = (Raise (StateMismatch "9b2e-fresh" "f3a1-sent"),
       with_query "f3a1-sent" "0.AAAA-code" w').
Proof.
  assert (Hf : length (network ex_fresh) < 3) by (cbn; lia).
  split; [exact Hf|].
  destruct (login_then_callback decimal_int ex_urlencode 3 "9b2e-fresh" ex_fresh Hf)
    as [Hok Hbad].
  split.
  - exact (proj2 (proj2 (Hok "0.AAAA-code" "/"))).
  - apply Hbad. discriminate.
Defined.

Lemma headers_override_witness :
  state ex_cached_session !! "access_token" = Some (PyStr "eyJ0-cached") /\
  exists h,
    headers ex_str_of_num "c0ffee-id" (Some ex_accept_text) ex_cached_session
      = (Ok h, ex_cached_session) /\
    h !! "Accept" = Some "text/plain" /\
    h !! "Content-Type" = Some "application/json" /\
    h !! "Authorization" = Some "Bearer eyJ0-cached".
Proof.
  assert (Ht : state ex_cached_session !! "access_token" = Some (PyStr "eyJ0-cached"))
    by (vm_compute; reflexivity).
  split; [exact Ht|].
  destruct (headers_override ex_str_of_num "c0ffee-id" (Some ex_accept_text)
              ex_cached_session (PyStr "eyJ0-cached") Ht)
    as (h & Hrun & Hkey & _).
  exists h. split; [exact Hrun|].
  split; [rewrite Hkey; vm_compute; reflexivity|].
  split; rewrite Hkey; vm_compute; reflexivity.
Defined.

Lemma headers_authorization_witness :
  state ex_fresh !! "access_token" = Some PyNone /\
  exists h,
    headers ex_str_of_num "c0ffee-id" None ex_fresh = (Ok h, ex_fresh) /\
    h !! "Authorization" = Some "Bearer None".
Proof.
  assert (Ht : state ex_fresh !! "access_token" = Some PyNone)
    by (vm_compute; reflexivity).
  split; [exact Ht|].
  destruct (headers_authorization ex_str_of_num "c0ffee-id" None ex_fresh PyNone Ht)
    as (h & Hrun & _ & Hnone & _).
  - reflexivity.
  - exists h. split; [exact Hrun|]. apply Hnone. reflexivity.
Defined.

Lemma init_scopes_reconciled_witness :
  let run := __init__ "https://graph.microsoft.com/" "v1.0"
               "https://login.microsoftonline.com/common"
               "/oauth2/v2.0/authorize" "/oauth2/v2.0/token"
               decimal_int 3 ex_kwargs_plain ex_fresh in
  fst run = Ok tt /\
  scopes (config (snd run)) = ["User.Read"; "Mail.Read"; "offline_access"] /\
  "offline_access" ∈ scopes (config (snd run)).
Proof.
  cbv zeta.
  set (run := __init__ _ _ _ _ _ decimal_int 3 ex_kwargs_plain ex_fresh).
  assert (Hrun : run = (Ok tt, snd run)) by (vm_compute; reflexivity).
  assert (Hf : length (network ex_fresh) < 3) by (cbn; lia).
  destruct (init_scopes_reconciled decimal_int _ _ _ _ _ 3 ex_kwargs_plain
              ex_fresh (snd run) Hf Hrun)
    as (Hc & Hin & _).
  split; [rewrite Hrun; reflexivity|].
  split; [rewrite Hc; reflexivity|]. apply Hin. reflexivity.
Defined.

Lemma init_fresh_session_witness :
  default false (kw_cache_state ex_kwargs_plain) = false /\
  exists w',
    __init__ "https://graph.microsoft.com/" "v1.0"
      "https://login.microsoftonline.com/common"
      "/oauth2/v2.0/authorize" "/oauth2/v2.0/token"
      decimal_int 3 ex_kwargs_plain ex_stale_file = (Ok tt, w') /\
    state w' = initialized_state /\ authstate w' = "" /\ state_json w' = None.
Proof.
  split; [reflexivity|].
  destruct (init_fresh_session decimal_int "https://graph.microsoft.com/" "v1.0"
              "https://login.microsoftonline.com/common"
              "/oauth2/v2.0/authorize" "/oauth2/v2.0/token"
              3 ex_kwargs_plain ex_stale_file eq_refl)
    as (w' & Hrun & Hs & _ & Ha & Hf & _).
  exists w'. repeat split; assumption.
Defined.
